(** * Agent swarm: the conversation orchestration engine

    A shallow embedding of the routing graph of the repository
    (agents/router.py, agents/personality.py, agents/support.py, graph.py,
    tools.py, state.py, and the request validators of api.py) and the
    properties of its specification.

    Conventions of the embedding.
    - The conversation record is the dict [AgentState] of state.py.  The keys
      that state.py declares are always present; the keys the steps add on
      their own (agent_stack, conversation_active, ...) may be absent, which
      is [None].  For a key whose value may be Python's None an absent key
      and a None value are both [None]: the code reads them with
      [state.get], which does not tell them apart.
    - Text is [string]; [lower], [upper] and [strip] act on the ASCII range
      as Python's do, and other bytes are kept as they are.
    - The outside world (the clock, the completion service, the uuid
      generator, the request files, the tool-calling executor) is an
      oracle [Env] that answers from the history of calls made so far; every
      call is appended to that history, the [Trace].
    - A step that can raise runs in the monad [Py.M]: the store is threaded
      through and is kept when an exception is raised, as a Python dict
      mutated in place is.  [print] has no effect on the store and is left
      out. *)

From stdpp Require Import gmap strings list.
From Stdlib Require Import ZArith Lia Ascii String.

Local Open Scope Z_scope.

(* ===================================================================== *)
(** ** Text: the methods of Python's str that the code calls             *)
(* ===================================================================== *)

Module Text.

Definition code (c : ascii) : nat := nat_of_ascii c.

Definition is_upper (c : ascii) : bool :=
  (Nat.leb 65 (code c)) && (Nat.leb (code c) 90).

Definition is_lower (c : ascii) : bool :=
  (Nat.leb 97 (code c)) && (Nat.leb (code c) 122).

Definition is_digit (c : ascii) : bool :=
  (Nat.leb 48 (code c)) && (Nat.leb (code c) 57).

(** str.isspace on one ASCII character: TAB, LF, VT, FF, CR, FS, GS, RS,
    US and the blank. *)
Definition is_space (c : ascii) : bool :=
  ((Nat.leb 9 (code c)) && (Nat.leb (code c) 13))
  || ((Nat.leb 28 (code c)) && (Nat.leb (code c) 32)).

Definition lower_char (c : ascii) : ascii :=
  if is_upper c then ascii_of_nat (code c + 32) else c.

Definition upper_char (c : ascii) : ascii :=
  if is_lower c then ascii_of_nat (code c - 32) else c.

(** s.lower() *)
Fixpoint lower (s : string) : string :=
  match s with
  | EmptyString => EmptyString
  | String c r => String (lower_char c) (lower r)
  end.

(** s.upper() *)
Fixpoint upper (s : string) : string :=
  match s with
  | EmptyString => EmptyString
  | String c r => String (upper_char c) (upper r)
  end.

(** s.lstrip() *)
Fixpoint lstrip (s : string) : string :=
  match s with
  | EmptyString => EmptyString
  | String c r => if is_space c then lstrip r else s
  end.

(** s.strip() *)
Definition strip (s : string) : string :=
  String.rev (lstrip (String.rev (lstrip s))).

(** s.title(): a letter that follows a letter is lowered, any other letter
    is raised. *)
Fixpoint title_from (after_letter : bool) (s : string) : string :=
  match s with
  | EmptyString => EmptyString
  | String c r =>
      let cased := is_upper c || is_lower c in
      String (if after_letter then lower_char c else upper_char c)
             (title_from cased r)
  end.

Definition title (s : string) : string := title_from false s.

(** needle in hay *)
Fixpoint contains (needle hay : string) : bool :=
  String.prefix needle hay
  || match hay with
     | EmptyString => false
     | String _ r => contains needle r
     end.

(** x in [a, b, ...] *)
Definition mem (x : string) (l : list string) : bool := bool_decide (x ∈ l).

(** sep.join(l) *)
Fixpoint join (sep : string) (l : list string) : string :=
  match l with
  | [] => ""
  | [x] => x
  | x :: r => x +:+ sep +:+ join sep r
  end.

(** s[:n] *)
Fixpoint take (n : nat) (s : string) : string :=
  match n, s with
  | S k, String c r => String c (take k r)
  | _, _ => EmptyString
  end.

(** Truth value of a str: the empty text is false. *)
Definition truthy (s : string) : bool :=
  match s with EmptyString => false | _ => true end.

(** Truth value of an Optional[str]. *)
Definition truthy_opt (o : option string) : bool :=
  match o with Some s => truthy s | None => false end.

End Text.

(* ===================================================================== *)
(** ** state.py: the conversation record                                  *)
(* ===================================================================== *)

Module State.

(** langchain_core.messages: the three message classes the steps use. *)
Inductive Role := HumanMessage | AIMessage | SystemMessage.

#[global] Instance Role_eq_dec : EqDecision Role.
Proof. solve_decision. Defined.

Record Message := { role : Role; content : string }.

(** The "input" of a ledger entry: a dict of named arguments, or, for the
    formatter's entry, the text itself. *)
Inductive ToolInput :=
| InText (text : string)
| InArgs (args : gmap string string).

(** class ToolOutput: an entry of tool_outputs[name]. *)
Record ToolOutput := {
  to_input : ToolInput;
  to_output : string;
  to_timestamp : string
}.

(** class ToolCall: an entry of tool_usage. *)
Record ToolCall := {
  tc_tool : string;
  tc_input : gmap string string;
  tc_output : string;
  tc_timestamp : string
}.

(** tool_outputs["router_llm"]: a dict of statistics, not a list of
    entries.  (The knowledge worker, which is not modelled, stores such
    statistics under the names of its own tools; no modelled step reads
    them.) *)
Record RouterCall := {
  rc_input : string;
  rc_output : string;
  rc_model : string;
  rc_status : string;
  rc_timestamp : string
}.

Record RouterLlm := {
  calls : list RouterCall;
  total_uses : nat;
  last_used : option string
}.

Record ToolOutputs := {
  router_llm : option RouterLlm;
  by_tool : gmap string (list ToolOutput)
}.

(** The "tool_calls" value of a workflow entry.  Three steps store there
    an object of the state itself, not a copy; the entry then shows
    whatever that object holds when it is read. *)
Inductive ToolCallsRef :=
| RouterInitialized
    (* {"router_llm": {"calls": [], "model": .., "status": "initialized"}} *)
| RouterSuccess (uses : nat) (last : option string)
    (* total_uses and last_used copied; "calls" is the ledger's own list *)
| SharedToolOutputs   (* state["tool_outputs"] itself *)
| SharedToolUsage     (* state["tool_usage"] itself *)
| NoToolCalls.        (* {} *)

(** An entry of workflow_history; the steps write different subsets of
    these keys. *)
Record WorkflowEntry := {
  agent_name : string;
  action : option string;
  wf_input : option string;
  wf_output : option string;
  tool_calls : option ToolCallsRef;
  wf_error : option string;
  timestamp : option string
}.

(** The "agent_workflow" value of a payload: the state's workflow_history
    list itself (entries appended later show through it), or a list of
    the payload's own. *)
Inductive WorkflowRef :=
| SharedHistory
| OwnList (entries : list WorkflowEntry).

(** The formatter's final payload. *)
Record Payload := {
  response : string;
  source_agent_response : string;
  agent_workflow : WorkflowRef;
  payload_conversation_active : bool;
  payload_needs_followup : bool;
  payload_error : option string
}.

Record PersonalityConfig := {
  style : string;
  tone : string;
  language_level : string
}.

Record SupportContext := {
  current_ticket : option string;
  current_appointment : option string;
  interaction_history : option (list string)
}.

Record AgentState := {
  (* keys declared by AgentState in state.py *)
  input : string;
  messages : list Message;
  (* the dict the support executor returns; the knowledge worker stores
     an AgentFinish object, which is true and holds no key "output": a
     non-empty map without that key *)
  agent_outcome : option (gmap string string);
  next : string;
  tool_outputs : ToolOutputs;
  tool_usage : list ToolCall;
  last_tool : option string;
  tool_result : option string;
  workflow_history : list WorkflowEntry;
  personality_output : option Payload;
  error : option string;
  is_complete : option bool;
  (* keys the steps add themselves: None when absent *)
  current_agent : option string;
  agent_stack : option (list string);
  conversation_active : option bool;
  needs_followup : option bool;
  task_list : option (list string);
  personality_config : option PersonalityConfig;
  support_context : option SupportContext
}.

Definition set_input (v : string) (s : AgentState) : AgentState :=
  {| input := v; messages := messages s; agent_outcome := agent_outcome s;
     next := next s; tool_outputs := tool_outputs s;
     tool_usage := tool_usage s; last_tool := last_tool s;
     tool_result := tool_result s; workflow_history := workflow_history s;
     personality_output := personality_output s; error := error s;
     is_complete := is_complete s; current_agent := current_agent s;
     agent_stack := agent_stack s;
     conversation_active := conversation_active s;
     needs_followup := needs_followup s; task_list := task_list s;
     personality_config := personality_config s;
     support_context := support_context s |}.

Definition set_messages (v : list Message) (s : AgentState) : AgentState :=
  {| input := input s; messages := v; agent_outcome := agent_outcome s;
     next := next s; tool_outputs := tool_outputs s;
     tool_usage := tool_usage s; last_tool := last_tool s;
     tool_result := tool_result s; workflow_history := workflow_history s;
     personality_output := personality_output s; error := error s;
     is_complete := is_complete s; current_agent := current_agent s;
     agent_stack := agent_stack s;
     conversation_active := conversation_active s;
     needs_followup := needs_followup s; task_list := task_list s;
     personality_config := personality_config s;
     support_context := support_context s |}.

Definition set_agent_outcome (v : option (gmap string string)) (s : AgentState) : AgentState :=
  {| input := input s; messages := messages s; agent_outcome := v;
     next := next s; tool_outputs := tool_outputs s;
     tool_usage := tool_usage s; last_tool := last_tool s;
     tool_result := tool_result s; workflow_history := workflow_history s;
     personality_output := personality_output s; error := error s;
     is_complete := is_complete s; current_agent := current_agent s;
     agent_stack := agent_stack s;
     conversation_active := conversation_active s;
     needs_followup := needs_followup s; task_list := task_list s;
     personality_config := personality_config s;
     support_context := support_context s |}.

Definition set_next (v : string) (s : AgentState) : AgentState :=
  {| input := input s; messages := messages s;
     agent_outcome := agent_outcome s; next := v;
     tool_outputs := tool_outputs s; tool_usage := tool_usage s;
     last_tool := last_tool s; tool_result := tool_result s;
     workflow_history := workflow_history s;
     personality_output := personality_output s; error := error s;
     is_complete := is_complete s; current_agent := current_agent s;
     agent_stack := agent_stack s;
     conversation_active := conversation_active s;
     needs_followup := needs_followup s; task_list := task_list s;
     personality_config := personality_config s;
     support_context := support_context s |}.

Definition set_tool_outputs (v : ToolOutputs) (s : AgentState) : AgentState :=
  {| input := input s; messages := messages s;
     agent_outcome := agent_outcome s; next := next s; tool_outputs := v;
     tool_usage := tool_usage s; last_tool := last_tool s;
     tool_result := tool_result s; workflow_history := workflow_history s;
     personality_output := personality_output s; error := error s;
     is_complete := is_complete s; current_agent := current_agent s;
     agent_stack := agent_stack s;
     conversation_active := conversation_active s;
     needs_followup := needs_followup s; task_list := task_list s;
     personality_config := personality_config s;
     support_context := support_context s |}.

Definition set_tool_usage (v : list ToolCall) (s : AgentState) : AgentState :=
  {| input := input s; messages := messages s;
     agent_outcome := agent_outcome s; next := next s;
     tool_outputs := tool_outputs s; tool_usage := v;
     last_tool := last_tool s; tool_result := tool_result s;
     workflow_history := workflow_history s;
     personality_output := personality_output s; error := error s;
     is_complete := is_complete s; current_agent := current_agent s;
     agent_stack := agent_stack s;
     conversation_active := conversation_active s;
     needs_followup := needs_followup s; task_list := task_list s;
     personality_config := personality_config s;
     support_context := support_context s |}.

Definition set_last_tool (v : option string) (s : AgentState) : AgentState :=
  {| input := input s; messages := messages s;
     agent_outcome := agent_outcome s; next := next s;
     tool_outputs := tool_outputs s; tool_usage := tool_usage s;
     last_tool := v; tool_result := tool_result s;
     workflow_history := workflow_history s;
     personality_output := personality_output s; error := error s;
     is_complete := is_complete s; current_agent := current_agent s;
     agent_stack := agent_stack s;
     conversation_active := conversation_active s;
     needs_followup := needs_followup s; task_list := task_list s;
     personality_config := personality_config s;
     support_context := support_context s |}.

Definition set_tool_result (v : option string) (s : AgentState) : AgentState :=
  {| input := input s; messages := messages s;
     agent_outcome := agent_outcome s; next := next s;
     tool_outputs := tool_outputs s; tool_usage := tool_usage s;
     last_tool := last_tool s; tool_result := v;
     workflow_history := workflow_history s;
     personality_output := personality_output s; error := error s;
     is_complete := is_complete s; current_agent := current_agent s;
     agent_stack := agent_stack s;
     conversation_active := conversation_active s;
     needs_followup := needs_followup s; task_list := task_list s;
     personality_config := personality_config s;
     support_context := support_context s |}.

Definition set_workflow_history (v : list WorkflowEntry) (s : AgentState) : AgentState :=
  {| input := input s; messages := messages s;
     agent_outcome := agent_outcome s; next := next s;
     tool_outputs := tool_outputs s; tool_usage := tool_usage s;
     last_tool := last_tool s; tool_result := tool_result s;
     workflow_history := v; personality_output := personality_output s;
     error := error s; is_complete := is_complete s;
     current_agent := current_agent s; agent_stack := agent_stack s;
     conversation_active := conversation_active s;
     needs_followup := needs_followup s; task_list := task_list s;
     personality_config := personality_config s;
     support_context := support_context s |}.

Definition set_personality_output (v : option Payload) (s : AgentState) : AgentState :=
  {| input := input s; messages := messages s;
     agent_outcome := agent_outcome s; next := next s;
     tool_outputs := tool_outputs s; tool_usage := tool_usage s;
     last_tool := last_tool s; tool_result := tool_result s;
     workflow_history := workflow_history s; personality_output := v;
     error := error s; is_complete := is_complete s;
     current_agent := current_agent s; agent_stack := agent_stack s;
     conversation_active := conversation_active s;
     needs_followup := needs_followup s; task_list := task_list s;
     personality_config := personality_config s;
     support_context := support_context s |}.

Definition set_error (v : option string) (s : AgentState) : AgentState :=
  {| input := input s; messages := messages s;
     agent_outcome := agent_outcome s; next := next s;
     tool_outputs := tool_outputs s; tool_usage := tool_usage s;
     last_tool := last_tool s; tool_result := tool_result s;
     workflow_history := workflow_history s;
     personality_output := personality_output s; error := v;
     is_complete := is_complete s; current_agent := current_agent s;
     agent_stack := agent_stack s;
     conversation_active := conversation_active s;
     needs_followup := needs_followup s; task_list := task_list s;
     personality_config := personality_config s;
     support_context := support_context s |}.

Definition set_is_complete (v : option bool) (s : AgentState) : AgentState :=
  {| input := input s; messages := messages s;
     agent_outcome := agent_outcome s; next := next s;
     tool_outputs := tool_outputs s; tool_usage := tool_usage s;
     last_tool := last_tool s; tool_result := tool_result s;
     workflow_history := workflow_history s;
     personality_output := personality_output s; error := error s;
     is_complete := v; current_agent := current_agent s;
     agent_stack := agent_stack s;
     conversation_active := conversation_active s;
     needs_followup := needs_followup s; task_list := task_list s;
     personality_config := personality_config s;
     support_context := support_context s |}.

Definition set_current_agent (v : option string) (s : AgentState) : AgentState :=
  {| input := input s; messages := messages s;
     agent_outcome := agent_outcome s; next := next s;
     tool_outputs := tool_outputs s; tool_usage := tool_usage s;
     last_tool := last_tool s; tool_result := tool_result s;
     workflow_history := workflow_history s;
     personality_output := personality_output s; error := error s;
     is_complete := is_complete s; current_agent := v;
     agent_stack := agent_stack s;
     conversation_active := conversation_active s;
     needs_followup := needs_followup s; task_list := task_list s;
     personality_config := personality_config s;
     support_context := support_context s |}.

Definition set_agent_stack (v : option (list string)) (s : AgentState) : AgentState :=
  {| input := input s; messages := messages s;
     agent_outcome := agent_outcome s; next := next s;
     tool_outputs := tool_outputs s; tool_usage := tool_usage s;
     last_tool := last_tool s; tool_result := tool_result s;
     workflow_history := workflow_history s;
     personality_output := personality_output s; error := error s;
     is_complete := is_complete s; current_agent := current_agent s;
     agent_stack := v; conversation_active := conversation_active s;
     needs_followup := needs_followup s; task_list := task_list s;
     personality_config := personality_config s;
     support_context := support_context s |}.

Definition set_conversation_active (v : option bool) (s : AgentState) : AgentState :=
  {| input := input s; messages := messages s;
     agent_outcome := agent_outcome s; next := next s;
     tool_outputs := tool_outputs s; tool_usage := tool_usage s;
     last_tool := last_tool s; tool_result := tool_result s;
     workflow_history := workflow_history s;
     personality_output := personality_output s; error := error s;
     is_complete := is_complete s; current_agent := current_agent s;
     agent_stack := agent_stack s; conversation_active := v;
     needs_followup := needs_followup s; task_list := task_list s;
     personality_config := personality_config s;
     support_context := support_context s |}.

Definition set_needs_followup (v : option bool) (s : AgentState) : AgentState :=
  {| input := input s; messages := messages s;
     agent_outcome := agent_outcome s; next := next s;
     tool_outputs := tool_outputs s; tool_usage := tool_usage s;
     last_tool := last_tool s; tool_result := tool_result s;
     workflow_history := workflow_history s;
     personality_output := personality_output s; error := error s;
     is_complete := is_complete s; current_agent := current_agent s;
     agent_stack := agent_stack s;
     conversation_active := conversation_active s; needs_followup := v;
     task_list := task_list s; personality_config := personality_config s;
     support_context := support_context s |}.

Definition set_task_list (v : option (list string)) (s : AgentState) : AgentState :=
  {| input := input s; messages := messages s;
     agent_outcome := agent_outcome s; next := next s;
     tool_outputs := tool_outputs s; tool_usage := tool_usage s;
     last_tool := last_tool s; tool_result := tool_result s;
     workflow_history := workflow_history s;
     personality_output := personality_output s; error := error s;
     is_complete := is_complete s; current_agent := current_agent s;
     agent_stack := agent_stack s;
     conversation_active := conversation_active s;
     needs_followup := needs_followup s; task_list := v;
     personality_config := personality_config s;
     support_context := support_context s |}.

Definition set_personality_config (v : option PersonalityConfig) (s : AgentState) : AgentState :=
  {| input := input s; messages := messages s;
     agent_outcome := agent_outcome s; next := next s;
     tool_outputs := tool_outputs s; tool_usage := tool_usage s;
     last_tool := last_tool s; tool_result := tool_result s;
     workflow_history := workflow_history s;
     personality_output := personality_output s; error := error s;
     is_complete := is_complete s; current_agent := current_agent s;
     agent_stack := agent_stack s;
     conversation_active := conversation_active s;
     needs_followup := needs_followup s; task_list := task_list s;
     personality_config := v; support_context := support_context s |}.

Definition set_support_context (v : option SupportContext) (s : AgentState) : AgentState :=
  {| input := input s; messages := messages s;
     agent_outcome := agent_outcome s; next := next s;
     tool_outputs := tool_outputs s; tool_usage := tool_usage s;
     last_tool := last_tool s; tool_result := tool_result s;
     workflow_history := workflow_history s;
     personality_output := personality_output s; error := error s;
     is_complete := is_complete s; current_agent := current_agent s;
     agent_stack := agent_stack s;
     conversation_active := conversation_active s;
     needs_followup := needs_followup s; task_list := task_list s;
     personality_config := personality_config s; support_context := v |}.

(** langgraph.graph.END *)
Definition END : string := "__end__".

(** The truth value of state.get(key) for the kinds of value stored. *)
Definition truthy_bool (o : option bool) : bool := default false o.

Definition truthy_dict (o : option (gmap string string)) : bool :=
  match o with
  | Some d => negb (bool_decide (d = ∅))
  | None => false
  end.

Definition truthy_list {A} (l : list A) : bool :=
  match l with [] => false | _ => true end.

End State.

(* ===================================================================== *)
(** ** The outside world and the monad of a step                          *)
(* ===================================================================== *)

Module World.
Import State.

(** One call out of the process. *)
Inductive Event :=
| Now                                      (* datetime.now() *)
| Completion (prompt : string) (input : string)
                                           (* (prompt | llm).invoke(..) *)
| Uuid4                                    (* uuid.uuid4() *)
| OpenJson (file : string)                 (* open(file); json.load *)
| HubPull (name : string)                  (* hub.pull(name) *)
| Executor (input : string).               (* AgentExecutor.invoke(..) *)

(** The calls made so far, oldest first. *)
Definition Trace := list Event.

(** The content of a request file as far as the support worker reads it:
    the dict under "request_data", when there is one. *)
Record RequestFile := { request_data : option (gmap string string) }.

(** What the world answers, given the calls made before.  A completion,
    a file read and an executor run can fail: [inl] carries str(e). *)
Record Env := {
  clock : Trace → string;
  complete : Trace → string → list Message → string → string + string;
  uuid4 : Trace → string;
  read_json : Trace → string → string + RequestFile;
  run_executor : Trace → string → list Message → string + gmap string string
}.

End World.

Module Py.
Import World.

Inductive outcome (A : Type) :=
| Return (a : A)
| Raise (msg : string).
Arguments Return {A} a.
Arguments Raise {A} msg.

(** The result of running a step: how it ended, the store it left and the
    calls it made. *)
Record run (S A : Type) := Run {
  value : outcome A;
  store : S;
  trace : Trace
}.
Arguments Run {S A} value store trace.
Arguments value {S A} r.
Arguments store {S A} r.
Arguments trace {S A} r.

Definition M (S A : Type) : Type := S → Trace → run S A.

Definition ret {S A} (a : A) : M S A := λ s t, Run (Return a) s t.

Definition bind {S A B} (c : M S A) (k : A → M S B) : M S B :=
  λ s t,
    match c s t with
    | Run (Return a) s' t' => k a s' t'
    | Run (Raise e) s' t' => Run (Raise e) s' t'
    end.

Definition raise {S A} (msg : string) : M S A := λ s t, Run (Raise msg) s t.

(** try: body / except Exception as e: handler(str(e)).  The handler runs
    on the store as the body left it. *)
Definition try_except {S A} (body : M S A) (handler : string → M S A) : M S A :=
  λ s t,
    match body s t with
    | Run (Return a) s' t' => Run (Return a) s' t'
    | Run (Raise e) s' t' => handler e s' t'
    end.

Definition get {S} : M S S := λ s t, Run (Return s) s t.

Definition modify {S} (f : S → S) : M S unit := λ s t, Run (Return tt) (f s) t.

(** A block of statements that reads and writes the store and leaves a
    value. *)
Definition update {S A} (f : S → A * S) : M S A :=
  λ s t, Run (Return (f s).1) (f s).2 t.

(** An external call: the answer is read off the history, the call is
    appended to it. *)
Definition call {S A} (answer : Trace → string + A) (e : Event) : M S A :=
  λ s t,
    match answer t with
    | inl msg => Run (Raise msg) s (t ++ [e])
    | inr a => Run (Return a) s (t ++ [e])
    end.

Declare Scope py_scope.
Delimit Scope py_scope with py.
Notation "'let*' x ':=' c 'in' k" := (bind c (λ x, k))
  (at level 10, x name, c at level 100, k at level 200) : py_scope.
Notation "c ';;' k" := (bind c (λ _, k))
  (at level 100, k at level 200, right associativity) : py_scope.

End Py.

(* ===================================================================== *)
(** ** agents/router.py: the Classifier step                              *)
(* ===================================================================== *)

Module Router.
Import State World Py.
Local Open Scope py_scope.

Section Classifier.
Variable env : Env.

Definition model : string := "meta-llama/llama-4-maverick-17b-128e-instruct".

Definition end_commands : list string :=
  ["goodbye"; "bye"; "exit"; "quit"; "end"].

(** datetime.now().strftime("%Y-%m-%d %H:%M:%S") *)
Definition now : M AgentState string :=
  call (λ t, inr (clock env t)) Now.

(** chain = router_prompt | llm; chain.invoke({messages, input}).content *)
Definition invoke_router (msgs : list Message) (inp : string) : M AgentState string :=
  call (λ t, complete env t "router" msgs inp) (Completion "router" inp).

(** state["tool_outputs"]["router_llm"] with its default. *)
Definition router_stats (s : AgentState) : RouterLlm :=
  default {| calls := []; total_uses := 0; last_used := None |}
          (router_llm (tool_outputs s)).

Definition set_router_stats (r : RouterLlm) (s : AgentState) : AgentState :=
  set_tool_outputs
    {| router_llm := Some r; by_tool := by_tool (tool_outputs s) |} s.

(** Initialize and update state: lines 64-79.  workflow_history and
    tool_outputs are declared keys, so their guards never fire. *)
Definition initialize (state : AgentState) : AgentState :=
  let state := set_current_agent (Some "router") state in
  let state :=
    if agent_stack state is None then set_agent_stack (Some []) state else state in
  let state :=
    set_agent_stack (Some (default [] (agent_stack state) ++ ["router"])) state in
  (* Initialize conversation state if not present *)
  let state :=
    if conversation_active state is None
    then set_conversation_active (Some true) state else state in
  let state :=
    if needs_followup state is None
    then set_needs_followup (Some true) state else state in
  if task_list state is None then set_task_list (Some []) state else state.

(** Track start of routing in workflow history: lines 80-92. *)
Definition log_start (ts : string) (state : AgentState) : AgentState :=
  set_workflow_history
    (workflow_history state ++
       [{| agent_name := "router";
           action := Some "start_routing";
           wf_input := Some (input state);
           wf_output := None;
           tool_calls := Some RouterInitialized;
           wf_error := None;
           timestamp := Some ts |}]) state.

(** Add new call to history: lines 111-125. *)
Definition add_call (next_agent ts : string) (state : AgentState) : AgentState :=
  let state := set_router_stats (router_stats state) state in
  let r := router_stats state in
  set_router_stats
    {| calls := calls r ++
         [{| rc_input := input state; rc_output := next_agent;
             rc_model := model; rc_status := "success";
             rc_timestamp := ts |}];
       total_uses := total_uses r;
       last_used := last_used r |} state.

(** state["tool_outputs"]["router_llm"]["total_uses"] += 1 *)
Definition count_use (state : AgentState) : AgentState :=
  let r := router_stats state in
  set_router_stats
    {| calls := calls r; total_uses := total_uses r + 1;
       last_used := last_used r |} state.

(** state["tool_outputs"]["router_llm"]["last_used"] = now *)
Definition stamp_use (ts : string) (state : AgentState) : AgentState :=
  let r := router_stats state in
  set_router_stats
    {| calls := calls r; total_uses := total_uses r;
       last_used := Some ts |} state.

(** Convert string responses to proper states: lines 132-138. *)
Definition convert (next_agent : string) (state : AgentState)
  : string * AgentState :=
  if String.eqb next_agent "end" then
    (END, set_needs_followup (Some false)
            (set_conversation_active (Some false) state))
  else if negb (Text.mem next_agent ["knowledge"; "support"]) then
    ("support", state)
  else (next_agent, state).

(** Add completion to workflow history: lines 141-156. *)
Definition log_completion (next_agent ts : string) (state : AgentState)
  : AgentState :=
  set_workflow_history
    (workflow_history state ++
       [{| agent_name := "router";
           action := Some "complete_routing";
           wf_input := Some (input state);
           wf_output := Some next_agent;
           tool_calls :=
             Some (RouterSuccess (total_uses (router_stats state))
                                 (last_used (router_stats state)));
           wf_error := None;
           timestamp := Some ts |}]) state.

(** Handle conversation state and agent outcomes: lines 159-171. *)
Definition handle_outcome (next_agent : string) (state : AgentState)
  : string * AgentState :=
  if truthy_dict (agent_outcome state) then
    if truthy_bool (needs_followup state) then
      (next state, state)   (* state.get("next", "support"): a declared key *)
    else
      match default [] (task_list state) with
      | next_task :: rest =>
          (* Default to support for new tasks *)
          ("support", set_input next_task (set_task_list (Some rest) state))
      | [] =>
          (* No more tasks, end the conversation *)
          (END, set_needs_followup (Some false)
                  (set_conversation_active (Some false) state))
      end
  else if negb (truthy_bool (conversation_active state)) then
    (END, state)
  else (next_agent, state).

(** Validate agent assignment and handle end states: lines 174-181.  The
    decision is always a str here, END included. *)
Definition validate (next_agent : string) : string :=
  let next_agent := Text.lower (Text.strip next_agent) in
  let next_agent := if String.eqb next_agent "end" then END else next_agent in
  if negb (Text.mem next_agent ["knowledge"; "support"; END])
  then "support" else next_agent.

(** Prevent automatic ending unless explicitly requested: lines 184-186. *)
Definition prevent_automatic_end (state : AgentState) (next_agent : string)
  : string :=
  if String.eqb next_agent END
     && default true (conversation_active state)
     && default true (needs_followup state)
  then "support" else next_agent.

(** The body of the try block. *)
Definition route_try : M AgentState unit :=
  modify initialize ;;
  let* ts := now in
  modify (log_start ts) ;;
  (* Check for explicit end command *)
  let* state := get in
  if Text.mem (Text.lower (input state)) end_commands then
    modify (set_conversation_active (Some false)) ;;
    modify (set_next END)
  else
    (* Get routing decision from LLM *)
    let* response := invoke_router (messages state) (input state) in
    (* Clean and validate response *)
    let next_agent := Text.strip (Text.lower response) in
    (* Update tool usage with LLM call *)
    let* ts := now in
    modify (add_call next_agent ts) ;;
    modify count_use ;;
    let* ts := now in
    modify (stamp_use ts) ;;
    let* next_agent := update (convert next_agent) in
    let* ts := now in
    modify (log_completion next_agent ts) ;;
    let* next_agent := update (handle_outcome next_agent) in
    let next_agent := validate next_agent in
    let* state := get in
    modify (set_next (prevent_automatic_end state next_agent)).

(** def route_message(state): the try block and its handler.  The
    function returns the state object it was given; here that is the
    store left by the run. *)
Definition route_message : M AgentState unit :=
  try_except route_try
    (λ e, modify (set_next "support") ;;   (* Default to support on error *)
          modify (set_error (Some e))).

End Classifier.
End Router.

(* ===================================================================== *)
(** ** graph.py: the continuation policy and the edge out of the router   *)
(* ===================================================================== *)

Module Graph.
Import State.

(** End indicators for natural conversation endings. *)
Definition end_indicators : list string :=
  ["goodbye"; "thank you"; "thanks"; "have a good day"; "that's all";
   "ticket has been created"; "appointment has been scheduled"].

Definition followup_prompt : string :=
  "Do you have any other questions or is there anything else I can help you with?".

(** state["messages"][-1].content if state["messages"] else "" *)
Definition last_message (s : AgentState) : string :=
  match last (messages s) with
  | Some m => content m
  | None => ""
  end.

(** def should_continue(state): the decision, and the state as the call
    leaves it. *)
Definition should_continue (state : AgentState) : string * AgentState :=
  (* Check for error condition *)
  if Text.truthy_opt (error state) then (END, state)
  else
    (* Check if this is the end of the conversation *)
    if existsb (λ indicator, Text.contains indicator (Text.lower (last_message state)))
               end_indicators
    then (END, state)
    else
      (* Check if we should continue with follow-up *)
      if default true (needs_followup state) then
        ("router", set_input followup_prompt (set_is_complete (Some false) state))
      else (END, state).

(** def route_edge(state), the conditional edge out of the router.
    "messages" is a declared key, so the first guard never fires. *)
Definition route_edge (state : AgentState) : string * AgentState :=
  if Text.truthy_opt (error state) then (END, state)
  else
    let next_agent := next state in
    if negb (Text.truthy next_agent) then
      ("support", set_next "support" state)
    else
      let next_agent := Text.lower (Text.strip next_agent) in
      if Text.mem next_agent ["end"; "__end__"; END] then (END, state)
      else if Text.mem next_agent ["knowledge"; "support"; "router"] then
        (next_agent, state)
      else ("support", set_next "support" state).

(** The state that invoke_graph creates for a message (the keys the
    modelled steps read). *)
Definition initial_state (message : string) : AgentState :=
  {| input := message; messages := []; agent_outcome := None; next := "";
     tool_outputs := {| router_llm := None; by_tool := ∅ |};
     tool_usage := []; last_tool := None; tool_result := None;
     workflow_history := []; personality_output := None; error := None;
     is_complete := Some false; current_agent := None;
     agent_stack := Some []; conversation_active := Some true;
     needs_followup := Some true; task_list := Some [];
     personality_config := None;
     support_context :=
       Some {| current_ticket := None; current_appointment := None;
               interaction_history := None |} |}.

(** The state as the two functions below use it: the keys of the modelled
    steps, and the knowledge worker's scratch context, which only these
    two functions write here. *)
Record GraphState := {
  agent : AgentState;
  knowledge_context : option (gmap string string)
}.

Definition on_agent (f : AgentState → AgentState) (state : GraphState) : GraphState :=
  {| agent := f (agent state); knowledge_context := knowledge_context state |}.

(** state.get("support_context", {}).get("interaction_history", []) *)
Definition current_history (s : AgentState) : list string :=
  default [] (support_context s ≫= interaction_history).

(** def personality_edge(state), the conditional edge out of the
    formatter.  "messages" is a declared key. *)
Definition personality_edge (state : GraphState) : string * GraphState :=
  if Text.truthy_opt (error (agent state)) then (END, state)
  else
    let result := (should_continue (agent state)).1 in
    let state := on_agent (λ _, (should_continue (agent state)).2) state in
    if String.eqb result "router" then
      (result,
       on_agent (λ s, set_current_agent (Some "router")
                        (set_agent_outcome None
                           (set_last_tool None (set_tool_result None s)))) state)
    else if String.eqb result END then
      (result,
       {| agent :=
            set_support_context
              (Some {| current_ticket := None; current_appointment := None;
                       interaction_history := Some (current_history (agent state)) |})
              (agent state);
          knowledge_context := Some ∅ |})
    else (result, state).

(** def cleanup_state(state) *)
Definition cleanup_state (state : GraphState) : GraphState :=
  (* Remove completed agent from stack *)
  let state :=
    if truthy_list (default [] (agent_stack (agent state))) then
      let stack := removelast (default [] (agent_stack (agent state))) in
      on_agent (λ s, set_current_agent (last stack) (set_agent_stack (Some stack) s))
               state
    else state in
  (* Clear temporary data *)
  let state :=
    if truthy_bool (is_complete (agent state)) then
      {| agent :=
           set_support_context
             (Some {| current_ticket := None; current_appointment := None;
                      interaction_history := None |}) (agent state);
         knowledge_context := Some ∅ |}
    else state in
  (* Update conversation state *)
  if Text.truthy_opt (error (agent state)) then
    on_agent (λ s, set_needs_followup (Some false)
                     (set_conversation_active (Some false) s)) state
  else if negb (truthy_list (default [] (task_list (agent state))))
          && negb (truthy_bool (needs_followup (agent state))) then
    on_agent (set_conversation_active (Some false)) state
  else state.

End Graph.

(* ===================================================================== *)
(** ** agents/personality.py: the Formatter step                          *)
(* ===================================================================== *)

Module Personality.
Import State World Py.
Local Open Scope py_scope.

Section Formatter.
Variable env : Env.

(** The store of the function: the state, and the local variable
    original_response, [None] until it is assigned (the handler asks
    whether it is in locals()). *)
Definition Frame : Type := AgentState * option string.

Definition on_state (f : AgentState → AgentState) : M Frame unit :=
  modify (λ fr, (f fr.1, fr.2)).

Definition get_state : M Frame AgentState :=
  let* fr := get in ret fr.1.

Definition now : M Frame string :=
  call (λ t, inr (clock env t)) Now.

(** chain = personality_prompt | llm; chain.invoke({input}).content *)
Definition invoke_personality (inp : string) : M Frame string :=
  call (λ t, complete env t "personality" [] inp) (Completion "personality" inp).

Definition apology : string :=
  "I apologize, but I'm having trouble formatting the response. Let me provide the direct answer:".

(** Get original response: lines 58-64. *)
Definition get_original_response (s : AgentState) : string :=
  let from_outcome :=
    match agent_outcome s with
    | Some d => if truthy_dict (Some d) then d !! "output" else None
    | None => None
    end in
  match from_outcome with
  | Some o => o
  | None =>
      if truthy_list (messages s) then
        match last (messages s) with
        | Some {| role := AIMessage; content := c |} => c
        | _ => ""
        end
      else ""
  end.

(** Initialize personality config: lines 50-55. *)
Definition configure (state : AgentState) : AgentState :=
  if personality_config state is None
  then set_personality_config
         (Some {| style := "professional"; tone := "friendly";
                  language_level := "clear" |}) state
  else state.

(** Update tool usage with personality LLM call: lines 75-79.  The key is
    assigned a new one-entry list. *)
Definition record_call (original_response personality_response ts : string)
    (state : AgentState) : AgentState :=
  set_tool_outputs
    {| router_llm := router_llm (tool_outputs state);
       by_tool :=
         <["personality_llm" :=
             [{| to_input := InText original_response;
                 to_output := personality_response;
                 to_timestamp := ts |}]]>
           (by_tool (tool_outputs state)) |} state.

(** The two workflow entries of lines 82-89 and 115-121; only the first
    carries "tool_calls". *)
Definition log_enhancement (original_response personality_response : string)
    (calls : option ToolCallsRef) (ts : string) (state : AgentState) : AgentState :=
  set_workflow_history
    (workflow_history state ++
       [{| agent_name := "personality";
           action := Some "enhance_response";
           wf_input := Some original_response;
           wf_output := Some personality_response;
           tool_calls := calls;
           wf_error := None;
           timestamp := Some ts |}]) state.

(** Construct final response format: lines 95-102. *)
Definition final_output (original_response personality_response : string)
    (state : AgentState) : Payload :=
  {| response := personality_response;
     source_agent_response := original_response;
     agent_workflow := SharedHistory;
     payload_conversation_active := default true (conversation_active state);
     payload_needs_followup := default true (needs_followup state);
     payload_error := error state |}.

(** Update state, update agent stack: lines 105-112. *)
Definition publish (personality_response : string) (output : Payload)
    (state : AgentState) : AgentState :=
  let state :=
    set_messages
      (messages state ++ [{| role := AIMessage; content := personality_response |}])
      state in
  let state := set_personality_output (Some output) state in
  let state := set_current_agent (Some "personality") state in
  let state :=
    if agent_stack state is None then set_agent_stack (Some []) state else state in
  set_agent_stack (Some (default [] (agent_stack state) ++ ["personality"])) state.

(** The body of the try block. *)
Definition personality_try : M Frame Payload :=
  on_state configure ;;
  (* Get original response *)
  modify (λ fr : Frame, (fr.1, Some "")) ;;
  let* state := get_state in
  let original_response := get_original_response state in
  modify (λ fr : Frame, (fr.1, Some original_response)) ;;
  (* Transform response *)
  let* personality_response :=
    if Text.truthy original_response
    then invoke_personality original_response
    else ret original_response in
  (* Update tool usage with personality LLM call *)
  (if Text.truthy original_response then
     let* ts := now in
     on_state (record_call original_response personality_response ts)
   else ret tt) ;;
  (* Track this transformation in workflow history *)
  let* ts := now in
  on_state (log_enhancement original_response personality_response
              (Some SharedToolOutputs) ts) ;;
  (* Construct final response format *)
  let* state := get_state in
  let output := final_output original_response personality_response state in
  on_state (publish personality_response output) ;;
  (* Update workflow history *)
  let* ts := now in
  on_state (log_enhancement original_response personality_response None ts) ;;
  ret output.

Definition personality_except (e : string) : M Frame Payload :=
  let error_message := "Error in personality agent: " +:+ e in
  on_state (set_error (Some error_message)) ;;
  let* fr := get in
  ret {| response := apology;
         source_agent_response :=
           default "Error retrieving original response" fr.2;
         agent_workflow :=
           OwnList [{| agent_name := "error"; action := None;
                       wf_input := None; wf_output := None;
                       tool_calls := Some NoToolCalls;
                       wf_error := None; timestamp := None |}];
         payload_conversation_active := true;
         payload_needs_followup := true;
         payload_error := None |}.

(** def personality_agent(state) *)
Definition personality_agent : M AgentState Payload :=
  λ state t,
    let r := try_except personality_try personality_except (state, None) t in
    Run (value r) (store r).1 (trace r).

End Formatter.
End Personality.

(* ===================================================================== *)
(** ** tools.py: the two action tools                                     *)
(* ===================================================================== *)

Module Tools.
Import State World Py.
Local Open Scope py_scope.

(** *** datetime: what strptime, weekday and strftime do for the two
    formats the tool uses *)

Record Date := { year : Z; month : Z; day : Z }.
Record Time := { hour : Z; minute : Z }.

Definition digit (c : ascii) : option Z :=
  if Text.is_digit c then Some (Z.of_nat (Text.code c) - 48) else None.

(** The digits of a field, as a number. *)
Fixpoint number_from (acc : Z) (s : string) : option Z :=
  match s with
  | EmptyString => Some acc
  | String c r =>
      match digit c with
      | Some d => number_from (10 * acc + d) r
      | None => None
      end
  end.

Definition number (s : string) : option Z :=
  match s with
  | EmptyString => None
  | _ => number_from 0 s
  end.

(** s.split(sep) for a one-character separator. *)
Fixpoint split_on (sep : ascii) (s : string) : list string :=
  match s with
  | EmptyString => [EmptyString]
  | String c r =>
      if Ascii.eqb c sep then EmptyString :: split_on sep r
      else match split_on sep r with
           | h :: t => String c h :: t
           | [] => [String c EmptyString]
           end
  end.

(** A field of one or two digits with a value in [lo, hi]: the shape of
    strptime's patterns for %m, %d, %H and %M ("05", "5", "26"). *)
Definition field (lo hi : Z) (s : string) : option Z :=
  if Nat.leb (String.length s) 2 then
    match number s with
    | Some n => if (lo <=? n) && (n <=? hi) then Some n else None
    | None => None
    end
  else None.

(** %d also takes a blank-padded day (" 5"). *)
Definition day_field (s : string) : option Z :=
  match s with
  | String " " (String c EmptyString) =>
      match digit c with
      | Some n => if 1 <=? n then Some n else None
      | None => None
      end
  | _ => field 1 31 s
  end.

(** %Y: exactly four digits. *)
Definition year_field (s : string) : option Z :=
  if Nat.eqb (String.length s) 4 then number s else None.

Definition is_leap (y : Z) : bool :=
  (y mod 4 =? 0) && (negb (y mod 100 =? 0) || (y mod 400 =? 0)).

Definition days_in_month (y m : Z) : Z :=
  if m =? 2 then (if is_leap y then 29 else 28)
  else if (m =? 4) || (m =? 6) || (m =? 9) || (m =? 11) then 30
  else 31.

(** datetime.strptime(s, "%Y-%m-%d"); None is ValueError. *)
Definition strptime_date (s : string) : option Date :=
  match split_on "-" s with
  | [y; m; d] =>
      match year_field y, field 1 12 m, day_field d with
      | Some y, Some m, Some d =>
          if (1 <=? y) && (d <=? days_in_month y m)
          then Some {| year := y; month := m; day := d |}
          else None
      | _, _, _ => None
      end
  | _ => None
  end.

(** datetime.strptime(s, "%H:%M").time(); None is ValueError. *)
Definition strptime_time (s : string) : option Time :=
  match split_on ":" s with
  | [h; m] =>
      match field 0 23 h, field 0 59 m with
      | Some h, Some m => Some {| hour := h; minute := m |}
      | _, _ => None
      end
  | _ => None
  end.

(** Days of year y before the first of month m + 1. *)
Fixpoint days_through_month (y : Z) (m : nat) : Z :=
  match m with
  | O => 0
  | S k => days_through_month y k + days_in_month y (Z.of_nat m)
  end.

(** date.toordinal(): 1 is 0001-01-01. *)
Definition toordinal (d : Date) : Z :=
  let y := year d - 1 in
  y * 365 + y / 4 - y / 100 + y / 400
  + days_through_month (year d) (Z.to_nat (month d - 1)) + day d.

(** date.weekday(): Monday is 0, Sunday is 6. *)
Definition weekday (d : Date) : Z := (toordinal d + 6) mod 7.

Definition day_name (w : Z) : string :=
  nth (Z.to_nat w)
      ["Monday"; "Tuesday"; "Wednesday"; "Thursday"; "Friday"; "Saturday"; "Sunday"] "".

Definition month_name (m : Z) : string :=
  nth (Z.to_nat m)
      [""; "January"; "February"; "March"; "April"; "May"; "June"; "July";
       "August"; "September"; "October"; "November"; "December"] "".

Definition digit_char (n : Z) : string :=
  String (ascii_of_nat (48 + Z.to_nat n)) EmptyString.

(** A number in decimal, padded with zeros to [width] digits. *)
Fixpoint decimal (width : nat) (n : Z) : string :=
  match width with
  | O => ""
  | S k => decimal k (n / 10) +:+ digit_char (n mod 10)
  end.

(** d.strftime("%A, %B %d, %Y") *)
Definition format_date (d : Date) : string :=
  day_name (weekday d) +:+ ", " +:+ month_name (month d) +:+ " "
  +:+ decimal 2 (day d) +:+ ", " +:+ decimal 4 (year d).

(** t.strftime("%I:%M %p") *)
Definition format_time (t : Time) : string :=
  let h12 := if hour t mod 12 =? 0 then 12 else hour t mod 12 in
  decimal 2 h12 +:+ ":" +:+ decimal 2 (minute t) +:+ " "
  +:+ (if hour t <? 12 then "AM" else "PM").

Definition business_hours_error : string :=
  "❌ Error: Time must be between 9:00 AM and 5:00 PM.".
Definition weekday_error : string :=
  "❌ Error: Appointments only on weekdays.".
Definition format_error : string :=
  "❌ Error: Date format (YYYY-MM-DD) and time format (HH:MM) required.".

(** The try block of schedule_support_call (lines 146-158) for a date and
    a time: the error text it returns, or the parsed date and time. *)
Definition check_booking (preferred_date preferred_time : string)
  : string + (Date * Time) :=
  match strptime_date preferred_date with
  | None => inl format_error
  | Some appointment_date =>
      match strptime_time preferred_time with
      | None => inl format_error
      | Some appointment_time =>
          if (hour appointment_time <? 9) || (17 <=? hour appointment_time)
          then inl business_hours_error
          else if 5 <=? weekday appointment_date
          then inl weekday_error
          else inr (appointment_date, appointment_time)
      end
  end.

Definition priorities : list string := ["low"; "normal"; "high"; "urgent"].
Definition categories : list string :=
  ["billing"; "technical"; "account"; "general"; "refund"].
Definition call_types : list string :=
  ["technical"; "billing"; "consultation"; "general"].

Definition ticket_response (ticket_id issue_description : string) : string :=
  "
    ✅ Support Ticket Created Successfully!
    Ticket ID: " +:+ ticket_id +:+ "
    Issue Description: " +:+ issue_description +:+ "
    Expected Response Time:
    - Low: 24-48 hrs | Normal: 12-24 hrs | High: 4-8 hrs | Urgent: 1-2 hrs
    ".

Definition call_response
    (appointment_id formatted call_type issue_summary : string) : string :=
  "
    📞 Support Call Scheduled Successfully!
    Appointment ID: " +:+ appointment_id +:+ "
    Scheduled: " +:+ formatted +:+ "
    Call Type: "
  +:+ Text.title call_type +:+ "
    Issue: " +:+ issue_summary +:+ "
    Note: Calls occur only during business hours (9 AM - 5 PM, Mon-Fri).
    ".

Section Actions.
Variable env : Env.

(** The store of a tool is its state argument: [None] is state=None. *)
Definition now : M (option AgentState) string :=
  call (λ t, inr (clock env t)) Now.

(** str(uuid.uuid4()) *)
Definition new_uuid : M (option AgentState) string :=
  call (λ t, inr (uuid4 env t)) Uuid4.

(** state.setdefault("tool_outputs", {}).setdefault(name, []).append(entry) *)
Definition append_output (name : string) (entry : ToolOutput)
    (s : AgentState) : AgentState :=
  set_tool_outputs
    {| router_llm := router_llm (tool_outputs s);
       by_tool :=
         <[name := default [] (by_tool (tool_outputs s) !! name) ++ [entry]]>
           (by_tool (tool_outputs s)) |} s.

(** state.setdefault("tool_usage", []).append(entry) *)
Definition append_usage (entry : ToolCall) (s : AgentState) : AgentState :=
  set_tool_usage (tool_usage s ++ [entry]) s.

(** def create_support_ticket(issue_description, priority, category, state) *)
Definition create_support_ticket
    (issue_description priority category : string)
  : M (option AgentState) string :=
  let* u := new_uuid in
  let ticket_id := "TICK-" +:+ Text.upper (Text.take 8 u) in
  let priority :=
    if negb (Text.mem (Text.lower priority) priorities)
    then "normal" else priority in
  let category :=
    if negb (Text.mem (Text.lower category) categories)
    then "general" else category in
  let ticket_data : gmap string string :=
    <["ticket_id" := ticket_id]>
      (<["issue_description" := issue_description]> ∅) in
  let response := ticket_response ticket_id issue_description in
  let* state := get in
  (if state is Some _ then
     let* ts := now in
     modify (fmap (append_output "create_support_ticket"
               {| to_input :=
                    InArgs (<["issue_description" := issue_description]>
                              (<["priority" := priority]>
                                 (<["category" := category]> ∅)));
                  to_output := response;
                  to_timestamp := ts |})) ;;
     let* ts := now in
     modify (fmap (append_usage
               {| tc_tool := "create_support_ticket";
                  tc_input := ticket_data;
                  tc_output := response;
                  tc_timestamp := ts |})) ;;
     modify (fmap (set_last_tool (Some "create_support_ticket"))) ;;
     modify (fmap (set_tool_result (Some response)))
   else ret tt) ;;
  ret response.

(** def schedule_support_call(issue_summary, call_type, state).  The
    date and the time are not parameters: the body assigns them. *)
Definition schedule_support_call (issue_summary call_type : string)
  : M (option AgentState) string :=
  let preferred_date := "2025-05-26" in
  let preferred_time := "14:30" in
  let* u := new_uuid in
  let appointment_id := "APT-" +:+ Text.upper (Text.take 8 u) in
  let call_type :=
    if negb (Text.mem (Text.lower call_type) call_types)
    then "general" else call_type in
  match check_booking preferred_date preferred_time with
  | inl error_text => ret error_text
  | inr (appointment_date, appointment_time) =>
      let formatted :=
        format_date appointment_date +:+ " at " +:+ format_time appointment_time in
      let* created_at := now in
      let appointment_data : gmap string string :=
        <["appointment_id" := appointment_id]>
          (<["date" := preferred_date]>
             (<["time" := preferred_time]>
                (<["formatted_datetime" := formatted]>
                   (<["issue_summary" := issue_summary]>
                      (<["call_type" := Text.lower call_type]>
                         (<["status" := "scheduled"]>
                            (<["created_at" := created_at]> ∅))))))) in
      let response :=
        call_response appointment_id formatted call_type issue_summary in
      let* state := get in
      (if state is Some _ then
         let* ts := now in
         modify (fmap (append_output "schedule_support_call"
                   {| to_input :=
                        InArgs (<["preferred_date" := preferred_date]>
                                  (<["preferred_time" := preferred_time]>
                                     (<["issue_summary" := issue_summary]>
                                        (<["call_type" := call_type]> ∅))));
                      to_output := response;
                      to_timestamp := ts |})) ;;
         let* ts := now in
         modify (fmap (append_usage
                   {| tc_tool := "schedule_support_call";
                      tc_input := appointment_data;
                      tc_output := response;
                      tc_timestamp := ts |})) ;;
         modify (fmap (set_last_tool (Some "schedule_support_call"))) ;;
         modify (fmap (set_tool_result (Some response)))
       else ret tt) ;;
      ret response
  end.

End Actions.
End Tools.

(* ===================================================================== *)
(** ** agents/support.py: the support worker                              *)
(* ===================================================================== *)

Module Support.
Import State World Py.
Local Open Scope py_scope.

Definition call_keywords : list string :=
  ["call"; "schedule"; "appointment"; "meeting"; "talk"; "discuss"; "phone";
   "speak"; "consultation"; "demo"; "training"; "walkthrough"; "setup"].

(** The dict that process_customer_data returns. *)
Record ProcessResult := {
  intent : string;
  data : option RequestFile;
  load_error : option string
}.

Definition followup_phrases : list string :=
  ["anything else"; "other questions"; "can i help"; "need clarification";
   "is there anything"].

Definition dquote : string := String (ascii_of_nat 34) EmptyString.

Definition ticket_command (description : string) : string :=
  "
                Create a support ticket with:
                - issue_description: " +:+ description +:+ "
                - priority: normal
                - category: general
            ".

Definition call_command (date time summary : string) : string :=
  "schedule_support_call(" +:+ dquote +:+ date +:+ dquote +:+ ", "
  +:+ dquote +:+ time +:+ dquote +:+ ", "
  +:+ dquote +:+ summary +:+ dquote +:+ ", "
  +:+ dquote +:+ "general" +:+ dquote +:+ ")".

(** not request_data.get(key) *)
Definition lacks (request : gmap string string) (key : string) : bool :=
  negb (Text.truthy_opt (request !! key)).

(** The list missing_fields of lines 149-156. *)
Definition missing_fields (request : gmap string string) : list string :=
  (if lacks request "preferred_time" then ["preferred time"] else [])
  ++ (if lacks request "issue_summary" then ["issue summary"] else [])
  ++ (if lacks request "preferred_date" then ["preferred date"] else []).

(** Determine intent from user input: line 29. *)
Definition classify_intent (user_input : string) : string :=
  if existsb (λ keyword, Text.contains keyword (Text.lower user_input))
             call_keywords
  then "schedule_call" else "create_ticket".

Definition empty_context (history : list string) : SupportContext :=
  {| current_ticket := None; current_appointment := None;
     interaction_history := Some history |}.

(** Initialize and update state, initialize tool tracking state: lines
    51-66.  tool_outputs and workflow_history are declared keys. *)
Definition initialize (state : AgentState) : AgentState :=
  let state := set_current_agent (Some "support") state in
  let state :=
    if agent_stack state is None then set_agent_stack (Some []) state else state in
  let state :=
    set_agent_stack (Some (default [] (agent_stack state) ++ ["support"])) state in
  if support_context state is None
  then set_support_context (Some (empty_context [])) state else state.

(** Track support agent activation in workflow: lines 69-74. *)
Definition log_request (ts : string) (state : AgentState) : AgentState :=
  set_workflow_history
    (workflow_history state ++
       [{| agent_name := "support";
           action := Some "handle_request";
           wf_input := Some (input state);
           wf_output := None; tool_calls := None;
           wf_error := None; timestamp := Some ts |}]) state.

Section Worker.
Variable env : Env.

Definition now : M AgentState string :=
  call (λ t, inr (clock env t)) Now.

(** def process_customer_data(user_input) *)
Definition process_customer_data (user_input : string) : M AgentState ProcessResult :=
  let intent := classify_intent user_input in
  let json_file :=
    if String.eqb intent "schedule_call" then "two.json" else "one.json" in
  try_except
    (let* customer_data := call (λ t, read_json env t json_file) (OpenJson json_file) in
     ret {| intent := intent; data := Some customer_data; load_error := None |})
    (λ e, ret {| intent := intent; data := None;
                 load_error := Some ("Error loading customer data: " +:+ e) |}).

(** prompt = hub.pull("hwchase17/react"); create_react_agent(..);
    AgentExecutor(..): the executor is built from the fetched prompt.
    None of it reads or writes the state; the fetch is recorded in the
    trace and is taken to succeed. *)
Definition build_executor : M AgentState unit :=
  call (λ _, inr tt) (HubPull "hwchase17/react").

(** agent_executor.invoke({"input": .., "chat_history": ..}) *)
Definition invoke_executor (tool_input : string) (history : list Message)
  : M AgentState (gmap string string) :=
  call (λ t, run_executor env t tool_input history) (Executor tool_input).

(** d[key] on a dict: KeyError when the key is absent. *)
Definition subscript {A} (o : option A) (key : string) : M AgentState A :=
  match o with
  | Some a => ret a
  | None => raise ("'" +:+ key +:+ "'")
  end.

Definition say (text : string) : M AgentState unit :=
  modify (λ s, set_messages
                 (messages s ++ [{| role := AIMessage; content := text |}]) s).

(** The part of the try block after tool_input is known: lines 175-201. *)
Definition execute_agent (tool_input : string) : M AgentState unit :=
  let* s := get in
  let* response :=
    invoke_executor tool_input
      (filter (λ m, role m = SystemMessage) (messages s)) in
  (* Track tool usage *)
  modify (λ s, set_workflow_history
                 (workflow_history s ++
                    [{| agent_name := "support"; action := None;
                        wf_input := None; wf_output := None;
                        tool_calls := Some SharedToolUsage;
                        wf_error := None; timestamp := None |}]) s) ;;
  (* Format response *)
  let* response_content := subscript (response !! "output") "output" in
  let response_content :=
    if negb (existsb (λ phrase, Text.contains phrase (Text.lower response_content))
                     followup_phrases)
    then response_content +:+ "

Is there anything else I can help you with?"
    else response_content in
  (* Update state *)
  say response_content ;;
  modify (set_agent_outcome (Some response)) ;;
  modify (set_error None) ;;
  modify (set_needs_followup (Some true)) ;;
  modify (set_is_complete (Some true)).

(** The try block: lines 138-201. *)
Definition support_try (process_result : ProcessResult) : M AgentState unit :=
  let* customer_data :=
    match data process_result with
    | Some d => ret d
    | None => raise "'NoneType' object is not subscriptable"
    end in
  if String.eqb (intent process_result) "create_ticket" then
    let* request := subscript (request_data customer_data) "request_data" in
    let* description := subscript (request !! "issue_description") "issue_description" in
    execute_agent (ticket_command description)
  else
    (* Validate required fields for support call *)
    let* request := subscript (request_data customer_data) "request_data" in
    match missing_fields request with
    | _ :: _ =>
        modify (set_error
                  (Some ("Missing required fields: "
                         +:+ Text.join ", " (missing_fields request)))) ;;
        say ("I need some additional information to schedule your support call. "
             +:+ "Please provide: " +:+ Text.join ", " (missing_fields request) +:+ ".") ;;
        modify (set_needs_followup (Some true))
    | [] =>
        (* Format the input as a structured command *)
        let* date := subscript (request !! "preferred_date") "preferred_date" in
        let* time := subscript (request !! "preferred_time") "preferred_time" in
        let* summary := subscript (request !! "issue_summary") "issue_summary" in
        execute_agent (call_command date time summary)
    end.

(** The handler: lines 203-235. *)
Definition support_except (e : string) : M AgentState unit :=
  let error_message := "Error in customer support agent: " +:+ e in
  modify (set_error (Some error_message)) ;;
  say "I apologize, but I need some additional information. Could you please provide:
1. A detailed description of your issue
2. Your preferred priority level (if applicable)
3. The best time to contact you (if you'd like a call)" ;;
  (* Update error state *)
  modify (set_needs_followup (Some true)) ;;
  let* ts := now in
  modify (λ s, set_workflow_history
                 (workflow_history s ++
                    [{| agent_name := "support";
                        action := Some "error_handling";
                        wf_input := None; wf_output := None;
                        tool_calls := None;
                        wf_error := Some error_message;
                        timestamp := Some ts |}]) s) ;;
  (* Clear any partial tool outputs *)
  modify (λ s, set_tool_outputs
                 {| router_llm := router_llm (tool_outputs s);
                    by_tool :=
                      delete "schedule_support_call"
                        (delete "create_support_ticket"
                           (by_tool (tool_outputs s))) |} s) ;;
  (* Clear support context on error *)
  modify (λ s, match support_context s with
               | Some c =>
                   set_support_context
                     (Some (empty_context (default [] (interaction_history c)))) s
               | None => s
               end).

(** def customer_support_agent(state) *)
Definition customer_support_agent : M AgentState unit :=
  modify initialize ;;
  (* Track support agent activation in workflow *)
  let* ts := now in
  modify (log_request ts) ;;
  (* Process customer data *)
  let* state := get in
  let* process_result := process_customer_data (input state) in
  if Text.truthy_opt (load_error process_result) then
    let e := default "" (load_error process_result) in
    modify (set_error (Some e)) ;;
    say ("I apologize, but I encountered an issue: " +:+ e +:+ ". "
         +:+ "Could you please provide your request details again?")
  else
    (* Create and configure the agent *)
    build_executor ;;
    try_except (support_try process_result) support_except.

End Worker.
End Support.

(* ===================================================================== *)
(** ** api.py: the validators of a chat request                           *)
(* ===================================================================== *)

Module Api.






End Api.

(* ===================================================================== *)
(** ** Worlds and states used to run the steps on concrete inputs         *)
(* ===================================================================== *)

Module Scenario.
Import State World Py.

Definition request (fields : list (string * string)) : RequestFile :=
  {| request_data := Some (list_to_map fields) |}.

Definition full_request : RequestFile :=
  request [("issue_summary", "Card reader offline");
           ("preferred_date", "2025-05-27");
           ("preferred_time", "08:00")].

(** A world whose completion service answers [llm] to every call, whose
    request files all hold [file], and whose executor answers [exec]. *)
Definition world (llm : string + string) (file : string + RequestFile)
    (exec : string + gmap string string) : Env :=
  {| clock := λ _, "2025-05-23 10:15:00";
     complete := λ _ _ _ _, llm;
     uuid4 := λ _, "3f2b8c1e-7a4d-4e0b-9c55-1d2e3f4a5b6c";
     read_json := λ _ _, file;
     run_executor := λ _ _ _, exec |}.

(** The completion service answers [reply]. *)
Definition answering (reply : string) : Env :=
  world (inr reply) (inr full_request) (inr {["output" := "Done."]}).

(** The completion service raises an exception whose text is [msg]. *)
Definition failing (msg : string) : Env :=
  world (inl msg) (inr full_request) (inl msg).

(** The state on entry of a later pass: a worker has left an outcome. *)
Definition with_outcome (s : AgentState) : AgentState :=
  set_agent_outcome (Some {["output" := "Your ticket is open."]}) s.

End Scenario.

(* ===================================================================== *)
(** ** Names for the intermediate states of a run                         *)
(* ===================================================================== *)

Module Derived.
Import State World Py.

(** The state of the router once the reply [next_agent] is in the ledger:
    lines 64-129 have run. *)
Definition recorded (env : Env) (s : AgentState) (t : Trace) (next_agent : string)
  : AgentState :=
  let t2 := (t ++ [Now]) ++ [Completion "router" (input s)] in
  Router.stamp_use (clock env (t2 ++ [Now]))
    (Router.count_use
       (Router.add_call next_agent (clock env t2)
          (Router.log_start (clock env t) (Router.initialize s)))).

(** The state the router leaves when the completion service answered. *)
Definition routed (env : Env) (s : AgentState) (t : Trace) (reply : string)
  : AgentState :=
  let na := Text.strip (Text.lower reply) in
  let t4 := (((t ++ [Now]) ++ [Completion "router" (input s)]) ++ [Now]) ++ [Now] in
  let s3 := recorded env s t na in
  let c := Router.convert na s3 in
  let s4 := Router.log_completion c.1 (clock env t4) c.2 in
  let h := Router.handle_outcome c.1 s4 in
  set_next (Router.prevent_automatic_end h.2 (Router.validate h.1)) h.2.


End Derived.

(* ===================================================================== *)
(** ** Names for the states and files the other steps reach              *)
(* ===================================================================== *)

Module Reached.
Import State World Py Scenario.

(** The store a run of the formatter leaves when its try block returns:
    [reply] is the response and [stamps] the clock readings. *)
Definition formatted (s : AgentState) (reply : string) (stamps : list string)
  : AgentState :=
  let original := Personality.get_original_response s in
  let logged :=
    Personality.log_enhancement original reply (Some SharedToolOutputs)
      (nth 1 stamps "")
      (if Text.truthy original
       then Personality.record_call original reply (nth 0 stamps "")
              (Personality.configure s)
       else Personality.configure s) in
  Personality.log_enhancement original reply None (nth 2 stamps "")
    (Personality.publish reply (Personality.final_output original reply logged) logged).

(** The store of the support worker once it has logged the request: lines
    51-74 have run, [ts] is the clock reading. *)
Definition received (ts : string) (s : AgentState) : AgentState :=
  Support.log_request ts (Support.initialize s).

(** The request file the worker opens for an input: line 32. *)
Definition request_file (user_input : string) : string :=
  if String.eqb (Support.classify_intent user_input) "schedule_call"
  then "two.json" else "one.json".

(** A step only adds to the audit trail and leaves the input and the
    agent stack alone. *)
Definition extends (s s' : AgentState) : Prop :=
  input s' = input s ∧ agent_stack s' = agent_stack s
  ∧ current_agent s' = current_agent s
  ∧ ∃ more, workflow_history s' = workflow_history s ++ more.


End Reached.

(* ===================================================================== *)
(** ** Tactics for running the steps symbolically                         *)
(* ===================================================================== *)

Import State World Py Scenario Derived.
Import Reached.

Arguments Text.lower : simpl never.
Arguments Text.strip : simpl never.
Arguments Text.mem : simpl never.
Arguments Text.contains : simpl never.
Arguments String.eqb : simpl never.

(** Case analysis on the keys of a state that may be absent. *)
Ltac open_state s :=
  destruct s as [inp msgs ao nx outs usage lt tres wh po er ic cur stk ca nf tl pc sc];
  destruct stk as [stk|], ca as [ca|], nf as [nf|], tl as [tl|].

(** Two runs with the same outcome and store are equal once their traces
    are bracketed the same way. *)
Ltac same_run :=
  match goal with
  | |- Run _ _ ?t1 = Run _ _ ?t2 =>
      replace t1 with t2 by (rewrite <- ?app_assoc; reflexivity)
  end;
  reflexivity.

(** Run the formatter up to the first choice the world makes. *)
Ltac run_formatter :=
  cbv beta iota zeta delta
    [Personality.personality_agent Personality.personality_try
     Personality.personality_except try_except bind modify get ret
     Personality.on_state Personality.get_state Personality.now
     Personality.invoke_personality call fst snd value store trace].


(** Run a tool: it makes no choice that depends on the world. *)
Ltac run_tool :=
  cbv beta iota zeta delta
    [Tools.create_support_ticket Tools.schedule_support_call
     Tools.now Tools.new_uuid bind modify get ret call
     fst snd value store trace fmap option_fmap option_map].

(** Run the support worker and its blocks to the end. *)
Ltac run_support :=
  cbv beta iota zeta delta
    [Support.customer_support_agent Support.process_customer_data
     Support.support_try Support.support_except Support.execute_agent
     Support.invoke_executor Support.build_executor Support.subscript Support.say
     Support.now try_except bind modify get ret raise call
     fst snd value store trace
     Support.intent Support.data Support.load_error].

(* ===================================================================== *)
(** * Properties                                                          *)
(* ===================================================================== *)

(** ** Text *)

Example lower_mixed : Text.lower "GoodBye " = "goodbye ".
Proof. reflexivity. Qed.

Example strip_both : Text.strip "  end
" = "end".
Proof. reflexivity. Qed.

Example title_word : Text.title "general" = "General".
Proof. reflexivity. Qed.

Example contains_mid : Text.contains "thanks" "many thanks!" = true.
Proof. reflexivity. Qed.

Lemma mem_true x l : Text.mem x l = true ↔ x ∈ l.
Proof. unfold Text.mem. apply bool_decide_eq_true. Qed.

Lemma mem_false x l : Text.mem x l = false ↔ x ∉ l.
Proof. unfold Text.mem. apply bool_decide_eq_false. Qed.

(** ** The Classifier: the three ways a run of route_message can go *)

Section RouterRuns.
Variable env : Env.
Variables (s : AgentState) (t : Trace).

Lemma initialize_input : input (Router.initialize s) = input s.
Proof. open_state s; reflexivity. Qed.

Lemma initialize_messages : messages (Router.initialize s) = messages s.
Proof. open_state s; reflexivity. Qed.

Lemma initialize_tool_outputs : tool_outputs (Router.initialize s) = tool_outputs s.
Proof. open_state s; reflexivity. Qed.

(** The fast path: one clock read, nothing else. *)
Lemma route_fast :
  Text.mem (Text.lower (input s)) Router.end_commands = true →
  Router.route_message env s t =
  Run (Return tt)
      (set_next END (set_conversation_active (Some false)
         (Router.log_start (clock env t) (Router.initialize s))))
      (t ++ [Now]).
Proof.
  intros H.
  unfold Router.route_message, Router.route_try, try_except, bind, modify, get,
    Router.now, call.
  cbn [Router.log_start input set_workflow_history].
  rewrite initialize_input, H. reflexivity.
Qed.

(** The completion service raised: the handler runs on the state as the
    try block left it. *)
Lemma route_failed msg :
  Text.mem (Text.lower (input s)) Router.end_commands = false →
  complete env (t ++ [Now]) "router" (messages s) (input s) = inl msg →
  Router.route_message env s t =
  Run (Return tt)
      (set_error (Some msg) (set_next "support"
         (Router.log_start (clock env t) (Router.initialize s))))
      (t ++ [Now; Completion "router" (input s)]).
Proof.
  intros H Hl.
  unfold Router.route_message, Router.route_try, try_except, bind, modify, get,
    Router.now, Router.invoke_router, call.
  cbn [Router.log_start input messages set_workflow_history].
  rewrite initialize_input, initialize_messages, H, Hl.
  same_run.
Qed.

(** The completion service answered. *)
Lemma route_replied reply :
  Text.mem (Text.lower (input s)) Router.end_commands = false →
  complete env (t ++ [Now]) "router" (messages s) (input s) = inr reply →
  Router.route_message env s t =
  Run (Return tt) (routed env s t reply)
      (t ++ [Now; Completion "router" (input s); Now; Now; Now]).
Proof.
  intros H Hl.
  unfold Router.route_message, Router.route_try, try_except, bind, modify, get,
    update, Router.now, Router.invoke_router, call.
  cbn [Router.log_start input messages set_workflow_history].
  rewrite initialize_input, initialize_messages, H, Hl.
  unfold routed, recorded. cbn zeta.
  same_run.
Qed.


End RouterRuns.

(** ** The Classifier: what the blocks after the reply decide *)

Lemma validate_cases x :
  Router.validate x = "knowledge" ∨ Router.validate x = "support"
  ∨ Router.validate x = END.
Proof.
  unfold Router.validate, Text.mem. cbn zeta.
  case_bool_decide as H; cbn [negb]; [|auto].
  rewrite !elem_of_cons in H. rewrite elem_of_nil in H. intuition.
Qed.





(** ** The Classifier: the claims *)

(** C3, as stated, fails: the fast path compares the lowercased input with
    the end commands and does not trim it.  The input "bye " (one trailing
    blank) lowercases and trims to "bye", yet the Classifier calls the
    completion service, records the call under router_llm and routes on. *)
Lemma fast_path_does_not_trim :
  Text.mem (Text.strip (Text.lower "bye ")) Router.end_commands = true
  ∧ let r := Router.route_message (answering "support") (Graph.initial_state "bye ") [] in
    trace r = [Now; Completion "router" "bye "; Now; Now; Now]
    ∧ conversation_active (store r) = Some true
    ∧ next (store r) = "support"
    ∧ (total_uses <$> router_llm (tool_outputs (store r))) = Some 1%nat.
Proof. vm_compute. repeat split; reflexivity. Qed.

(** C3, amended: for every input whose lowercased form (not trimmed) is one
    of goodbye, bye, exit, quit, end, the Classifier sets
    conversation_active=false and next=terminal and returns at once: its
    only call out is one clock read, so the completion service is not
    invoked, and tool_outputs (router_llm included) is left as it was. *)
Theorem fast_path_on_exact_end_command (env : Env) (s : AgentState) (t : Trace) :
  Text.lower (input s) ∈ Router.end_commands →
  let r := Router.route_message env s t in
  value r = Return tt
  ∧ conversation_active (store r) = Some false
  ∧ next (store r) = END
  ∧ trace r = t ++ [Now]
  ∧ tool_outputs (store r) = tool_outputs s.
Proof.
  intros H. apply mem_true in H. cbn zeta. rewrite (route_fast env s t H).
  cbn [value store trace]. repeat split.
  cbn [tool_outputs set_next set_conversation_active Router.log_start set_workflow_history].
  apply initialize_tool_outputs.
Qed.

Lemma fast_path_on_exact_end_command_witness :
  Text.lower (input (Graph.initial_state "Goodbye")) ∈ Router.end_commands
  ∧ let r := Router.route_message (answering "knowledge")
               (Graph.initial_state "Goodbye") [] in
    value r = Return tt
    ∧ conversation_active (store r) = Some false
    ∧ next (store r) = END
    ∧ trace r = [] ++ [Now]
    ∧ tool_outputs (store r) = tool_outputs (Graph.initial_state "Goodbye").
Proof.
  assert (H : Text.lower (input (Graph.initial_state "Goodbye")) ∈ Router.end_commands).
  { apply mem_true. vm_compute. reflexivity. }
  split; [exact H|].
  exact (fast_path_on_exact_end_command (answering "knowledge")
           (Graph.initial_state "Goodbye") [] H).
Defined.







(** C7, as stated, fails in its last part: the Classifier does catch the
    exception, record its text and set next="support", but the edge out of
    the router reads state.error first and routes to the terminal, so the
    turn ends at routing. *)
Lemma route_failure_ends_turn_at_edge :
  let s := Graph.initial_state "My card was declined" in
  let r := Router.route_message (failing "Request timed out.") s [] in
  value r = Return tt
  ∧ error (store r) = Some "Request timed out."
  ∧ next (store r) = "support"
  ∧ (Graph.route_edge (store r)).1 = END.
Proof. vm_compute. repeat split; reflexivity. Qed.

(** C7, amended: for every exception raised by the completion service
    during routing, the Classifier catches it (the step returns normally),
    records the text of the exception into state.error and sets
    next="support"; the edge out of the router then routes to the terminal
    when that text is not empty, and to "support" when it is empty. *)
Theorem route_failure_defaults_to_support
    (env : Env) (s : AgentState) (t : Trace) (msg : string) :
  Text.lower (input s) ∉ Router.end_commands →
  complete env (t ++ [Now]) "router" (messages s) (input s) = inl msg →
  let r := Router.route_message env s t in
  value r = Return tt
  ∧ error (store r) = Some msg
  ∧ next (store r) = "support"
  ∧ (Graph.route_edge (store r)).1 = (if Text.truthy msg then END else "support").
Proof.
  intros Hfast Hllm. apply mem_false in Hfast. cbn zeta.
  rewrite (route_failed env s t _ Hfast Hllm). cbn [value store].
  repeat split.
  unfold Graph.route_edge.
  cbn [error next set_error set_next Text.truthy_opt].
  destruct (Text.truthy msg); reflexivity.
Qed.

Lemma route_failure_defaults_to_support_witness :
  let s := Graph.initial_state "My card was declined" in
  let r := Router.route_message (failing "") s [] in
  (Text.lower (input s) ∉ Router.end_commands)
  ∧ complete (failing "") ([] ++ [Now]) "router" (messages s) (input s) = inl ""
  ∧ value r = Return tt
  ∧ error (store r) = Some ""
  ∧ next (store r) = "support"
  ∧ (Graph.route_edge (store r)).1 = "support".
Proof.
  assert (H1 : Text.lower (input (Graph.initial_state "My card was declined"))
               ∉ Router.end_commands) by (apply mem_false; vm_compute; reflexivity).
  split; [exact H1|]. split; [reflexivity|].
  exact (route_failure_defaults_to_support (failing "")
           (Graph.initial_state "My card was declined") [] "" H1 eq_refl).
Defined.

(** ** The Continuation Policy *)

Lemma existsb_indicator (text : string) :
  existsb (λ indicator, Text.contains indicator text) Graph.end_indicators = true
  ↔ ∃ indicator, indicator ∈ Graph.end_indicators
                 ∧ Text.contains indicator text = true.
Proof.
  rewrite existsb_exists. split; intros (i & Hi & Hc); exists i; split; auto;
    by apply list_elem_of_In.
Qed.



(** ** The Formatter *)

Lemma original_empty (s : AgentState) :
  agent_outcome s = None → messages s = [] →
  Personality.get_original_response s = "".
Proof. unfold Personality.get_original_response. intros -> ->. reflexivity. Qed.

Lemma configure_original (s : AgentState) :
  Personality.get_original_response (Personality.configure s)
  = Personality.get_original_response s.
Proof.
  unfold Personality.configure.
  destruct (personality_config s); [reflexivity|]. by destruct s.
Qed.

Lemma configure_conversation_active (s : AgentState) :
  conversation_active (Personality.configure s) = conversation_active s.
Proof.
  unfold Personality.configure.
  destruct (personality_config s); [reflexivity|]. by destruct s.
Qed.

(** C4, as stated, fails in its middle part: with agent_outcome None and no
    message, the original response is the empty text, the completion
    service is skipped, and the payload's response is that empty text. *)
Lemma formatter_empty_response :
  let s := Graph.initial_state "Hello" in
  let r := Personality.personality_agent (answering "Hi there!") s [] in
  agent_outcome s = None ∧ messages s = []
  ∧ ∃ p, value r = Return p ∧ response p = "" ∧ String.length (response p) = 0%nat.
Proof. vm_compute. repeat split. eexists. repeat split. Qed.

(** C4, amended: the Formatter is total: for every state and every world it
    returns a payload and never propagates an exception.  When
    agent_outcome is None and messages is empty, it returns, after two
    clock reads and no call of the completion service, a payload whose
    response and source_agent_response are the empty text and whose
    conversation_active is the state's flag (true when the key is absent).
    Whenever its try block raises, the payload has the fixed apology as
    response, conversation_active=true and needs_followup=true, and the
    text of the exception is recorded in state.error. *)
Theorem formatter_total (env : Env) (s : AgentState) (t : Trace) :
  let r := Personality.personality_agent env s t in
  ∃ p, value r = Return p
    ∧ (agent_outcome s = None → messages s = [] →
       response p = "" ∧ source_agent_response p = ""
       ∧ payload_conversation_active p = default true (conversation_active s)
       ∧ trace r = t ++ [Now; Now])
    ∧ (∀ e, value (Personality.personality_try env (s, None) t) = Raise e →
       response p = Personality.apology
       ∧ payload_conversation_active p = true
       ∧ payload_needs_followup p = true
       ∧ error (store r) = Some ("Error in personality agent: " +:+ e)).
Proof.
  cbn zeta. run_formatter; rewrite ?configure_original.
  destruct (Text.truthy (Personality.get_original_response s)) eqn:Horig.
  - destruct (complete env t "personality" [] (Personality.get_original_response s))
      as [msg|reply] eqn:Hllm.
    + run_formatter; rewrite ?configure_original. eexists. split; [reflexivity|]. split.
      * intros H1 H2. rewrite (original_empty s H1 H2) in Horig. discriminate.
      * intros e He. injection He as <-. cbn. auto.
    + run_formatter; rewrite ?configure_original. eexists. split; [reflexivity|]. split.
      * intros H1 H2. rewrite (original_empty s H1 H2) in Horig. discriminate.
      * intros e He. discriminate.
  - run_formatter; rewrite ?configure_original. eexists. split; [reflexivity|]. split.
    + intros H1 H2.
      cbn [response source_agent_response payload_conversation_active
           Personality.final_output].
      rewrite (original_empty s H1 H2). repeat split.
      * cbn [conversation_active Personality.log_enhancement set_workflow_history].
        by rewrite configure_conversation_active.
      * rewrite <- app_assoc. reflexivity.
    + intros e He. discriminate.
Qed.

(** The failure branch of the Formatter on a concrete world: the completion
    service is down while a worker's answer waits to be formatted. *)
Example formatter_degrades :
  let r := Personality.personality_agent (failing "boom")
             (with_outcome (Graph.initial_state "Hello")) [] in
  ∃ p, value r = Return p
    ∧ response p = Personality.apology
    ∧ source_agent_response p = "Your ticket is open."
    ∧ payload_conversation_active p = true ∧ payload_needs_followup p = true
    ∧ error (store r) = Some "Error in personality agent: boom".
Proof. vm_compute. eexists. repeat split. Qed.

(** ** The support worker *)

Lemma support_initialize_input (s : AgentState) :
  input (Support.initialize s) = input s.
Proof.
  destruct s as [inp msgs ao nx outs usage lt tres wh po er ic cur stk ca nf tl pc sc];
    destruct stk, sc; reflexivity.
Qed.

Lemma support_initialize_messages (s : AgentState) :
  messages (Support.initialize s) = messages s.
Proof.
  destruct s as [inp msgs ao nx outs usage lt tres wh po er ic cur stk ca nf tl pc sc];
    destruct stk, sc; reflexivity.
Qed.



Lemma classify_intent_cases (user_input : string) :
  Support.classify_intent user_input = "schedule_call"
  ∨ Support.classify_intent user_input = "create_ticket".
Proof. unfold Support.classify_intent. destruct (existsb _ _); auto. Qed.



(** The scenario of the specification: the summary is present, the date and
    the time are not; the message names exactly those two. *)
Example missing_date_and_time :
  let env := world (inr "support")
               (inr (request [("issue_summary", "Card reader offline")]))
               (inr ∅) in
  let r := Support.customer_support_agent env
             (Graph.initial_state "Please schedule a call") [] in
  messages (store r)
  = [{| role := AIMessage;
        content := "I need some additional information to schedule your support call. Please provide: preferred time, preferred date." |}]
  ∧ trace r = [Now; OpenJson "two.json"; HubPull "hwchase17/react"].
Proof. vm_compute. split; reflexivity. Qed.

(** ** The action tools *)

Lemma prefix_app (x rest : string) : String.prefix x (x +:+ rest) = true.
Proof.
  induction x as [|c x IH]; [by destruct rest|].
  change (String c x +:+ rest) with (String c (x +:+ rest)).
  cbn [String.prefix]. destruct (ascii_dec c c); [exact IH|congruence].
Qed.

Lemma contains_unfold (needle hay : string) :
  Text.contains needle hay
  = String.prefix needle hay
    || match hay with
       | EmptyString => false
       | String _ r => Text.contains needle r
       end.
Proof. by destruct hay. Qed.

Lemma contains_app_r (needle before rest : string) :
  Text.contains needle rest = true → Text.contains needle (before +:+ rest) = true.
Proof.
  intros H. induction before as [|c b IH]; [exact H|].
  change (String c b +:+ rest) with (String c (b +:+ rest)).
  rewrite contains_unfold, IH. apply orb_true_r.
Qed.

Lemma contains_here (needle rest : string) :
  Text.contains needle (needle +:+ rest) = true.
Proof. rewrite contains_unfold, prefix_app. reflexivity. Qed.

(** The booking rules as the try block of the tool applies them to a date
    and a time that parse. *)
Lemma check_booking_window (preferred_date preferred_time : string)
    (d : Tools.Date) (tm : Tools.Time) :
  Tools.strptime_date preferred_date = Some d →
  Tools.strptime_time preferred_time = Some tm →
  Tools.check_booking preferred_date preferred_time
  = if (Tools.hour tm <? 9) || (17 <=? Tools.hour tm)
    then inl Tools.business_hours_error
    else if 5 <=? Tools.weekday d then inl Tools.weekday_error
    else inr (d, tm).
Proof. unfold Tools.check_booking. intros -> ->. reflexivity. Qed.

Example booking_rules_on_samples :
  Tools.check_booking "2025-05-26" "14:30"
  = inr ({| Tools.year := 2025; Tools.month := 5; Tools.day := 26 |},
         {| Tools.hour := 14; Tools.minute := 30 |})
  ∧ Tools.check_booking "2025-05-26" "08:00" = inl Tools.business_hours_error
  ∧ Tools.check_booking "2025-05-26" "17:00" = inl Tools.business_hours_error
  ∧ Tools.check_booking "2025-05-24" "10:00" = inl Tools.weekday_error
  ∧ Tools.check_booking "2025-05-25" "10:00" = inl Tools.weekday_error
  ∧ Tools.check_booking "26/05/2025" "10:00" = inl Tools.format_error
  ∧ Tools.check_booking "2025-05-26" "10h00" = inl Tools.format_error.
Proof. vm_compute. repeat split; reflexivity. Qed.

(** C2, the code at the failing input: whatever the caller asked for,
    schedule_support_call books the slot its body assigns, Monday
    2025-05-26 at 14:30, and returns the success confirmation; it returns
    none of the three error texts, on any arguments, in any world.  The
    function has no parameter for the date or the time, though its
    docstring lists both. *)
Theorem schedule_support_call_ignores_request
    (env : Env) (issue_summary call_type : string)
    (state : option AgentState) (t : Trace) :
  let r := Tools.schedule_support_call env issue_summary call_type state t in
  let kind :=
    if Text.mem (Text.lower call_type) Tools.call_types
    then call_type else "general" in
  value r
  = Return (Tools.call_response
              ("APT-" +:+ Text.upper (Text.take 8 (uuid4 env t)))
              "Monday, May 26, 2025 at 02:30 PM" kind issue_summary)
  ∧ value r ≠ Return Tools.business_hours_error
  ∧ value r ≠ Return Tools.weekday_error
  ∧ value r ≠ Return Tools.format_error.
Proof.
  cbn zeta.
  assert (H : value (Tools.schedule_support_call env issue_summary call_type state t)
    = Return (Tools.call_response
              ("APT-" +:+ Text.upper (Text.take 8 (uuid4 env t)))
              "Monday, May 26, 2025 at 02:30 PM"
              (if Text.mem (Text.lower call_type) Tools.call_types
               then call_type else "general") issue_summary)).
  { run_tool.
    change (Tools.check_booking "2025-05-26" "14:30")
      with (@inr string _ ({| Tools.year := 2025; Tools.month := 5; Tools.day := 26 |},
                 {| Tools.hour := 14; Tools.minute := 30 |})).
    run_tool.
    destruct (Text.mem (Text.lower call_type) Tools.call_types); cbn [negb];
      destruct state; reflexivity. }
  rewrite H. split; [reflexivity|].
  repeat split; intros E; injection E as E; discriminate E.
Qed.

(** C10, as stated, fails: membership in the priority and category sets is
    tested on the lowercased value, and a value that passes is kept as it
    was written.  "HIGH" is outside {low, normal, high, urgent}, yet it is
    recorded as "HIGH", not replaced with "normal". *)
Lemma uppercase_priority_kept :
  let r := Tools.create_support_ticket (answering "support")
             "Card reader offline" "HIGH" "technical"
             (Some (Graph.initial_state "My card reader is offline")) [] in
  ("HIGH" ∉ Tools.priorities)
  ∧ ∃ s' args,
      store r = Some s'
      ∧ (to_input <$> by_tool (tool_outputs s') !!! "create_support_ticket")
        = [InArgs args]
      ∧ args !! "priority" = Some "HIGH"
      ∧ args !! "priority" ≠ Some "normal".
Proof.
  cbn zeta. split.
  - apply mem_false. vm_compute. reflexivity.
  - vm_compute. eexists _, _. repeat split. discriminate.
Qed.

(** C10, amended: create_support_ticket is total and never rejects its
    arguments: for every issue description, priority and category, with or
    without a state, it returns the success confirmation, which contains
    the ticket identifier generated in this call (TICK- and the first eight
    characters of a new uuid, in upper case).  A priority whose lowercased
    form is outside {low, normal, high, urgent} is replaced with "normal",
    a category whose lowercased form is outside {billing, technical,
    account, general, refund} with "general"; any other value is kept as
    written.  The replaced values appear only in the tool_outputs entry. *)
Theorem create_support_ticket_total
    (env : Env) (issue_description priority category : string)
    (state : option AgentState) (t : Trace) :
  let r := Tools.create_support_ticket env issue_description priority category state t in
  let ticket_id := "TICK-" +:+ Text.upper (Text.take 8 (uuid4 env t)) in
  let recorded_priority :=
    if Text.mem (Text.lower priority) Tools.priorities then priority else "normal" in
  let recorded_category :=
    if Text.mem (Text.lower category) Tools.categories then category else "general" in
  value r = Return (Tools.ticket_response ticket_id issue_description)
  ∧ Text.contains ticket_id (Tools.ticket_response ticket_id issue_description) = true
  ∧ (∃ rest, trace r = t ++ Uuid4 :: rest)
  ∧ ∀ s, state = Some s →
      ∃ s' entry,
        store r = Some s'
        ∧ last (by_tool (tool_outputs s') !!! "create_support_ticket") = Some entry
        ∧ to_input entry
          = InArgs (<["issue_description" := issue_description]>
                      (<["priority" := recorded_priority]>
                         (<["category" := recorded_category]> ∅))).
Proof.
  cbn zeta. run_tool. repeat split.
  - destruct state; reflexivity.
  - unfold Tools.ticket_response. apply contains_app_r, contains_here.
  - destruct state; eexists; rewrite <- ?app_assoc; reflexivity.
  - intros s ->. run_tool. eexists _, _. split; [reflexivity|].
    unfold Tools.append_usage, Tools.append_output.
    cbn [tool_outputs by_tool set_tool_outputs set_tool_usage set_last_tool
         set_tool_result].
    rewrite lookup_total_insert_eq, last_snoc. split; [reflexivity|].
    cbn [to_input].
    destruct (Text.mem (Text.lower priority) Tools.priorities),
             (Text.mem (Text.lower category) Tools.categories); reflexivity.
Qed.



(* ===================================================================== *)
(** * Further properties of the steps, the edges and the validators      *)
(* ===================================================================== *)

(** ** Text: how lower and strip combine *)




Lemma string_app_empty_r (a : string) : a +:+ "" = a.
Proof.
  induction a as [|x a IH]; [reflexivity|].
  change (String x (a +:+ "") = String x a). by rewrite IH.
Qed.




Lemma lower_unfold (c : ascii) (a : string) :
  Text.lower (String c a) = String (Text.lower_char c) (Text.lower a).
Proof. reflexivity. Qed.

Lemma lower_app (a b : string) :
  Text.lower (a +:+ b) = Text.lower a +:+ Text.lower b.
Proof.
  induction a as [|x a IH]; [reflexivity|].
  change (String x a +:+ b) with (String x (a +:+ b)).
  rewrite !lower_unfold, IH. reflexivity.
Qed.









(** ** api.py: the validators *)











(** ** The Classifier: more of what a run leaves *)

(** The blocks after the reply touch the routing fields and add one
    workflow entry; everything else is as the ledger blocks left it. *)
Lemma after_reply_frame (na ts : string) (x : AgentState) :
  let c := Router.convert na x in
  let h := Router.handle_outcome c.1 (Router.log_completion c.1 ts c.2) in
  let fin := set_next (Router.prevent_automatic_end h.2 (Router.validate h.1)) h.2 in
  tool_outputs fin = tool_outputs x ∧ agent_stack fin = agent_stack x
  ∧ current_agent fin = current_agent x ∧ messages fin = messages x
  ∧ error fin = error x
  ∧ ∃ e, workflow_history fin = workflow_history x ++ [e]
         ∧ agent_name e = "router" ∧ action e = Some "complete_routing".
Proof.
  cbn zeta. unfold Router.convert, Router.handle_outcome.
  destruct x as [inp msgs ao nx outs usage lt tres wh po er ic cur stk ca nf tl pc sc].
  destruct (String.eqb na "end");
    [|destruct (negb (Text.mem na ["knowledge"; "support"]))];
    cbn [fst snd agent_outcome needs_followup conversation_active task_list next
         Router.log_completion set_workflow_history set_needs_followup
         set_conversation_active];
    destruct (truthy_dict ao);
    try destruct (truthy_bool _);
    try destruct (default [] tl);
    cbn [fst snd negb]; repeat split; eexists; repeat split.
Qed.

Lemma recorded_frame (env : Env) (s : AgentState) (t : Trace) (na : string) :
  let x := recorded env s t na in
  agent_stack x = Some (default [] (agent_stack s) ++ ["router"])
  ∧ current_agent x = Some "router"
  ∧ messages x = messages s ∧ error x = error s
  ∧ by_tool (tool_outputs x) = by_tool (tool_outputs s)
  ∧ (∃ e, workflow_history x = workflow_history s ++ [e]
          ∧ agent_name e = "router" ∧ action e = Some "start_routing")
  ∧ router_llm (tool_outputs x)
    = Some {| calls := calls (Router.router_stats s) ++
                [{| rc_input := input s; rc_output := na;
                    rc_model := Router.model; rc_status := "success";
                    rc_timestamp :=
                      clock env ((t ++ [Now]) ++ [Completion "router" (input s)]) |}];
              total_uses := total_uses (Router.router_stats s) + 1;
              last_used :=
                Some (clock env (((t ++ [Now]) ++ [Completion "router" (input s)])
                                 ++ [Now])) |}.
Proof. open_state s; repeat split; eexists; repeat split. Qed.

Lemma entered_frame (ts : string) (s : AgentState) :
  let x := Router.log_start ts (Router.initialize s) in
  agent_stack x = Some (default [] (agent_stack s) ++ ["router"])
  ∧ current_agent x = Some "router"
  ∧ tool_outputs x = tool_outputs s
  ∧ ∃ e, workflow_history x = workflow_history s ++ [e]
         ∧ agent_name e = "router" ∧ action e = Some "start_routing".
Proof. open_state s; repeat split; eexists; repeat split. Qed.

Lemma route_decision_cases (env : Env) (s : AgentState) (t : Trace) :
  let r := Router.route_message env s t in
  next (store r) = "knowledge" ∨ next (store r) = "support" ∨ next (store r) = END.
Proof.
  cbn zeta.
  destruct (Text.mem (Text.lower (input s)) Router.end_commands) eqn:Hfast.
  { rewrite (route_fast env s t Hfast). cbn. auto. }
  destruct (complete env (t ++ [Now]) "router" (messages s) (input s))
    as [msg|reply] eqn:Hllm.
  { rewrite (route_failed env s t _ Hfast Hllm). cbn. auto. }
  rewrite (route_replied env s t _ Hfast Hllm). cbn [value store].
  unfold routed. cbn zeta. cbn [next set_next].
  unfold Router.prevent_automatic_end.
  destruct (_ && _); [auto|apply validate_cases].
Qed.





(** X6.  The router's ledger counts the answered calls: a run that takes the
    fast path, or whose completion call raises, leaves tool_outputs as it
    was (the failed call is not recorded); a run whose call is answered
    adds exactly one call record, with the state's input and the
    normalized reply, raises total_uses by one and stamps last_used.  The
    lists of the other tools are never touched. *)
Theorem router_ledger_counts_answered_calls (env : Env) (s : AgentState) (t : Trace) :
  let r := Router.route_message env s t in
  by_tool (tool_outputs (store r)) = by_tool (tool_outputs s)
  ∧ if Text.mem (Text.lower (input s)) Router.end_commands
    then tool_outputs (store r) = tool_outputs s
    else match complete env (t ++ [Now]) "router" (messages s) (input s) with
         | inl _ => tool_outputs (store r) = tool_outputs s
         | inr reply =>
             ∃ call ts,
               router_llm (tool_outputs (store r))
               = Some {| calls := calls (Router.router_stats s) ++ [call];
                         total_uses := total_uses (Router.router_stats s) + 1;
                         last_used := Some ts |}
               ∧ rc_input call = input s
               ∧ rc_output call = Text.strip (Text.lower reply)
               ∧ rc_status call = "success"
         end.
Proof.
  cbn zeta.
  destruct (Text.mem (Text.lower (input s)) Router.end_commands) eqn:Hfast.
  { rewrite (route_fast env s t Hfast). cbn [store].
    destruct (entered_frame (clock env t) s) as (_ & _ & H & _).
    cbn [tool_outputs set_next set_conversation_active]. by rewrite H. }
  destruct (complete env (t ++ [Now]) "router" (messages s) (input s))
    as [msg|reply] eqn:Hllm.
  { rewrite (route_failed env s t _ Hfast Hllm). cbn [store].
    destruct (entered_frame (clock env t) s) as (_ & _ & H & _).
    cbn [tool_outputs set_next set_error]. by rewrite H. }
  rewrite (route_replied env s t _ Hfast Hllm). cbn [store]. unfold routed. cbn zeta.
  destruct (after_reply_frame (Text.strip (Text.lower reply))
    (clock env ((((t ++ [Now]) ++ [Completion "router" (input s)]) ++ [Now]) ++ [Now]))
    (recorded env s t (Text.strip (Text.lower reply)))) as (Hto & _).
  cbn zeta in Hto. rewrite Hto.
  destruct (recorded_frame env s t (Text.strip (Text.lower reply)))
    as (_ & _ & _ & _ & Hby & _ & Hr).
  split; [exact Hby|]. eexists _, _. split; [exact Hr|]. repeat split.
Qed.

(** ** The edge out of the router *)

(** X7.  route_edge always names a node of the graph, and the state it leaves
    agrees with the node it chose: an error ends the turn with the state
    untouched, and whenever a node other than the terminal is chosen,
    state.next, lowercased and trimmed, is that node (an empty or unknown
    decision is rewritten to "support"). *)
Theorem route_edge_targets (s : AgentState) :
  let d := (Graph.route_edge s).1 in
  let s' := (Graph.route_edge s).2 in
  (d = "knowledge" ∨ d = "support" ∨ d = "router" ∨ d = END)
  ∧ (Text.truthy_opt (error s) = true → d = END ∧ s' = s)
  ∧ (d ≠ END → Text.lower (Text.strip (next s')) = d)
  ∧ (d = END → s' = s).
Proof.
  cbn zeta. unfold Graph.route_edge.
  destruct (Text.truthy_opt (error s)); [cbn [fst snd]; intuition|].
  destruct (Text.truthy (next s)); cbn [negb fst snd].
  2:{ split; [auto|]. split; [discriminate|]. split; [|discriminate].
      intros _. reflexivity. }
  unfold Text.mem. case_bool_decide as He; cbn [fst snd].
  { split; [auto|]. split; [discriminate|]. split; [done|]. reflexivity. }
  case_bool_decide as Hn; cbn [fst snd].
  - split.
    { rewrite !elem_of_cons, elem_of_nil in Hn. intuition. }
    split; [discriminate|]. split; [reflexivity|].
    intros E. exfalso. apply He. rewrite E. rewrite !elem_of_cons. auto.
  - split; [auto|]. split; [discriminate|]. split; [|discriminate].
    intros _. reflexivity.
Qed.

(** X8.  When no error is recorded, the edge goes where the Classifier decided
    and leaves the state as the Classifier left it. *)
Theorem route_edge_follows_classifier (env : Env) (s : AgentState) (t : Trace) :
  let r := Router.route_message env s t in
  Text.truthy_opt (error (store r)) = false →
  Graph.route_edge (store r) = (next (store r), store r).
Proof.
  cbn zeta. intros He.
  pose proof (route_decision_cases env s t) as Hn. cbn zeta in Hn.
  unfold Graph.route_edge. rewrite He.
  destruct Hn as [Hn|[Hn|Hn]]; rewrite Hn; reflexivity.
Qed.

Lemma route_edge_follows_classifier_witness :
  let r := Router.route_message (answering "Knowledge")
             (Graph.initial_state "What are the fees?") [] in
  Text.truthy_opt (error (store r)) = false
  ∧ Graph.route_edge (store r) = (next (store r), store r)
  ∧ next (store r) = "knowledge".
Proof.
  split; [reflexivity|]. split; [|reflexivity].
  exact (route_edge_follows_classifier (answering "Knowledge")
           (Graph.initial_state "What are the fees?") [] eq_refl).
Defined.

(** ** The Formatter: the two ways a run can go *)

Section FormatterRuns.
Variable env : Env.
Variables (s : AgentState) (t : Trace).

Lemma formatted_fields (reply : string) (stamps : list string) :
  let x := formatted s reply stamps in
  messages x = messages s ++ [{| role := AIMessage; content := reply |}]
  ∧ personality_output x
    = Some {| response := reply;
              source_agent_response := Personality.get_original_response s;
              agent_workflow := SharedHistory;
              payload_conversation_active := default true (conversation_active s);
              payload_needs_followup := default true (needs_followup s);
              payload_error := error s |}
  ∧ agent_stack x = Some (default [] (agent_stack s) ++ ["personality"])
  ∧ current_agent x = Some "personality"
  ∧ error x = error s ∧ needs_followup x = needs_followup s
  ∧ conversation_active x = conversation_active s
  ∧ router_llm (tool_outputs x) = router_llm (tool_outputs s)
  ∧ by_tool (tool_outputs x)
    = (if Text.truthy (Personality.get_original_response s)
       then <["personality_llm" :=
                [{| to_input := InText (Personality.get_original_response s);
                    to_output := reply;
                    to_timestamp := nth 0 stamps "" |}]]>
              (by_tool (tool_outputs s))
       else by_tool (tool_outputs s))
  ∧ workflow_history x
    = workflow_history s ++
      [{| agent_name := "personality"; action := Some "enhance_response";
          wf_input := Some (Personality.get_original_response s);
          wf_output := Some reply; tool_calls := Some SharedToolOutputs;
          wf_error := None; timestamp := Some (nth 1 stamps "") |};
       {| agent_name := "personality"; action := Some "enhance_response";
          wf_input := Some (Personality.get_original_response s);
          wf_output := Some reply; tool_calls := None;
          wf_error := None; timestamp := Some (nth 2 stamps "") |}].
Proof.
  unfold formatted.
  destruct (Text.truthy (Personality.get_original_response s));
    destruct s as [inp msgs ao nx outs usage lt tres wh po er ic cur stk ca nf tl pc sc];
    destruct pc, stk; cbn zeta;
    repeat split; try reflexivity;
    cbn; rewrite <- app_assoc; reflexivity.
Qed.

Lemma formatter_answered (reply : string) :
  Text.truthy (Personality.get_original_response s) = true →
  complete env t "personality" [] (Personality.get_original_response s) = inr reply →
  Personality.personality_agent env s t
  = Run (Return
           (Personality.final_output (Personality.get_original_response s) reply
              (Personality.log_enhancement (Personality.get_original_response s)
                 reply (Some SharedToolOutputs)
                 (clock env
                    ((t ++ [Completion "personality"
                              (Personality.get_original_response s)]) ++ [Now]))
                 (Personality.record_call (Personality.get_original_response s)
                    reply
                    (clock env
                       (t ++ [Completion "personality"
                                (Personality.get_original_response s)]))
                    (Personality.configure s)))))
        (formatted s reply
           [clock env
              (t ++ [Completion "personality" (Personality.get_original_response s)]);
            clock env
              ((t ++ [Completion "personality" (Personality.get_original_response s)])
               ++ [Now]);
            clock env
              (((t ++ [Completion "personality" (Personality.get_original_response s)])
                ++ [Now]) ++ [Now])])
        (t ++ [Completion "personality" (Personality.get_original_response s);
               Now; Now; Now]).
Proof.
  intros Ho Hl.
  run_formatter; rewrite ?configure_original.
  rewrite Ho, Hl.
  run_formatter; rewrite ?configure_original, ?Ho.
  unfold formatted. rewrite Ho. cbn [nth]. same_run.
Qed.

Lemma formatter_nothing_to_format :
  Text.truthy (Personality.get_original_response s) = false →
  Personality.personality_agent env s t
  = Run (Return (Personality.final_output (Personality.get_original_response s)
                   (Personality.get_original_response s)
                   (Personality.log_enhancement (Personality.get_original_response s)
                      (Personality.get_original_response s)
                      (Some SharedToolOutputs) (clock env t)
                      (Personality.configure s))))
        (formatted s (Personality.get_original_response s)
           [""; clock env t; clock env (t ++ [Now])])
        (t ++ [Now; Now]).
Proof.
  intros Ho.
  run_formatter; rewrite ?configure_original, ?Ho.
  run_formatter; rewrite ?configure_original, ?Ho.
  unfold formatted. rewrite Ho. cbn [nth]. same_run.
Qed.

Lemma formatter_failed (msg : string) :
  Text.truthy (Personality.get_original_response s) = true →
  complete env t "personality" [] (Personality.get_original_response s) = inl msg →
  Personality.personality_agent env s t
  = Run (Return {| response := Personality.apology;
                   source_agent_response := (Personality.get_original_response s);
                   agent_workflow :=
                     OwnList [{| agent_name := "error"; action := None;
                                 wf_input := None; wf_output := None;
                                 tool_calls := Some NoToolCalls;
                                 wf_error := None; timestamp := None |}];
                   payload_conversation_active := true;
                   payload_needs_followup := true;
                   payload_error := None |})
        (set_error (Some ("Error in personality agent: " +:+ msg))
           (Personality.configure s))
        (t ++ [Completion "personality" (Personality.get_original_response s)]).
Proof.
  intros Ho Hl.
  run_formatter; rewrite ?configure_original. rewrite Ho, Hl.
  run_formatter. reflexivity.
Qed.

End FormatterRuns.

(** X9.  When there is text to format and the completion service answers, the
    reply becomes the response: it is returned with the original text
    beside it, appended as one assistant message and stored as
    personality_output; "personality" is pushed on the agent stack; and
    tool_outputs["personality_llm"] is assigned a list holding this one
    call, whatever it held before.  The error of the state is passed on
    in the payload unchanged.  The enhancement is logged twice: two
    workflow entries with the same action, input and output are
    appended, and only the first carries the tool calls. *)
Theorem formatter_success (env : Env) (s : AgentState) (t : Trace) (reply : string) :
  Text.truthy (Personality.get_original_response s) = true →
  complete env t "personality" [] (Personality.get_original_response s) = inr reply →
  let r := Personality.personality_agent env s t in
  let original := Personality.get_original_response s in
  let payload :=
    {| response := reply; source_agent_response := original;
       agent_workflow := SharedHistory;
       payload_conversation_active := default true (conversation_active s);
       payload_needs_followup := default true (needs_followup s);
       payload_error := error s |} in
  value r = Return payload
  ∧ messages (store r) = messages s ++ [{| role := AIMessage; content := reply |}]
  ∧ personality_output (store r) = Some payload
  ∧ by_tool (tool_outputs (store r))
    = <["personality_llm" :=
          [{| to_input := InText original; to_output := reply;
              to_timestamp := clock env (t ++ [Completion "personality" original]) |}]]>
        (by_tool (tool_outputs s))
  ∧ agent_stack (store r) = Some (default [] (agent_stack s) ++ ["personality"])
  ∧ current_agent (store r) = Some "personality"
  ∧ error (store r) = error s
  ∧ (∃ first second,
       workflow_history (store r) = workflow_history s ++ [first; second]
       ∧ action first = Some "enhance_response"
       ∧ wf_input first = Some original ∧ wf_output first = Some reply
       ∧ tool_calls first = Some SharedToolOutputs
       ∧ action second = action first ∧ wf_input second = wf_input first
       ∧ wf_output second = wf_output first ∧ tool_calls second = None)
  ∧ trace r = t ++ [Completion "personality" original; Now; Now; Now].
Proof.
  intros Ho Hl. cbn zeta. rewrite (formatter_answered env s t reply Ho Hl).
  cbn [value store trace].
  destruct (formatted_fields s reply
    [clock env (t ++ [Completion "personality" (Personality.get_original_response s)]);
     clock env ((t ++ [Completion "personality" (Personality.get_original_response s)])
                ++ [Now]);
     clock env (((t ++ [Completion "personality" (Personality.get_original_response s)])
                 ++ [Now]) ++ [Now])])
    as (Hm & Hp & Hs & Hc & He & _ & _ & _ & Hb & Hw).
  cbn zeta in *. rewrite Ho in Hb. cbn [nth] in Hb.
  split; [|repeat (split; [assumption|]); split; [|reflexivity];
           eexists _, _; split; [exact Hw|]; repeat split].
  f_equal. unfold Personality.final_output. f_equal.
  - cbn [conversation_active Personality.log_enhancement set_workflow_history
         Personality.record_call set_tool_outputs].
    by rewrite configure_conversation_active.
  - cbn [needs_followup Personality.log_enhancement set_workflow_history
         Personality.record_call set_tool_outputs].
    unfold Personality.configure. destruct (personality_config s); [done|by destruct s].
  - cbn [error Personality.log_enhancement set_workflow_history
         Personality.record_call set_tool_outputs].
    unfold Personality.configure. destruct (personality_config s); [done|by destruct s].
Qed.

Lemma formatter_success_witness :
  let s := with_outcome (Graph.initial_state "Where is my ticket?") in
  let r := Personality.personality_agent (answering "Good news: your ticket is open.") s [] in
  Text.truthy (Personality.get_original_response s) = true
  ∧ complete (answering "Good news: your ticket is open.") [] "personality" []
      (Personality.get_original_response s)
    = inr "Good news: your ticket is open."
  ∧ messages (store r)
    = [{| role := AIMessage; content := "Good news: your ticket is open." |}]
  ∧ agent_stack (store r) = Some ["personality"].
Proof.
  split; [reflexivity|]. split; [reflexivity|].
  pose proof (formatter_success (answering "Good news: your ticket is open.")
                (with_outcome (Graph.initial_state "Where is my ticket?")) []
                "Good news: your ticket is open." eq_refl eq_refl) as H.
  cbn zeta in H. destruct H as (_ & Hm & _ & _ & Hs & _).
  split; [exact Hm|exact Hs].
Defined.

(** X10.  A failure of the formatter ends the turn: when the completion service
    raises, the step appends no message and no workflow entry and leaves
    personality_output as it was, but it records the error, so the
    continuation policy then decides the terminal, although the payload
    the step returns says needs_followup=true. *)
Theorem formatter_failure_ends_turn (env : Env) (s : AgentState) (t : Trace) (msg : string) :
  Text.truthy (Personality.get_original_response s) = true →
  complete env t "personality" [] (Personality.get_original_response s) = inl msg →
  let r := Personality.personality_agent env s t in
  (∃ p, value r = Return p ∧ payload_needs_followup p = true)
  ∧ messages (store r) = messages s
  ∧ workflow_history (store r) = workflow_history s
  ∧ personality_output (store r) = personality_output s
  ∧ error (store r) = Some ("Error in personality agent: " +:+ msg)
  ∧ Graph.should_continue (store r) = (END, store r).
Proof.
  intros Ho Hl. cbn zeta. rewrite (formatter_failed env s t msg Ho Hl).
  cbn [value store].
  split; [eexists; split; reflexivity|].
  assert (Hc : messages (Personality.configure s) = messages s
               ∧ workflow_history (Personality.configure s) = workflow_history s
               ∧ personality_output (Personality.configure s) = personality_output s).
  { unfold Personality.configure. destruct (personality_config s); [done|by destruct s]. }
  destruct Hc as (H1 & H2 & H3).
  cbn [messages workflow_history personality_output error set_error].
  repeat split; auto.
Qed.

Lemma formatter_failure_ends_turn_witness :
  let s := with_outcome (Graph.initial_state "Where is my ticket?") in
  let r := Personality.personality_agent (failing "Request timed out.") s [] in
  Text.truthy (Personality.get_original_response s) = true
  ∧ complete (failing "Request timed out.") [] "personality" []
      (Personality.get_original_response s) = inl "Request timed out."
  ∧ Graph.should_continue (store r) = (END, store r).
Proof.
  split; [reflexivity|]. split; [reflexivity|].
  exact (proj2 (proj2 (proj2 (proj2 (proj2
    (formatter_failure_ends_turn (failing "Request timed out.")
       (with_outcome (Graph.initial_state "Where is my ticket?")) []
       "Request timed out." eq_refl eq_refl)))))).
Defined.

(** X11.  After a formatter run that returns from its try block, the last
    message is the response of the payload, so the continuation policy
    reads the formatted text, not the worker's: with no error in the
    state, the turn ends exactly when the lowercased response holds a
    natural-ending phrase or needs_followup is false; otherwise the loop
    goes back to the router. *)
Theorem formatted_reply_decides_continuation
    (env : Env) (s : AgentState) (t : Trace) (p : Payload) :
  value (Personality.personality_try env (s, None) t) = Return p →
  Text.truthy_opt (error s) = false →
  let r := Personality.personality_agent env s t in
  let decision := (Graph.should_continue (store r)).1 in
  Graph.last_message (store r) = response p
  ∧ (decision = "router" ∨ decision = END)
  ∧ (decision = END
     ↔ (∃ indicator, indicator ∈ Graph.end_indicators
                     ∧ Text.contains indicator (Text.lower (response p)) = true)
       ∨ default true (needs_followup s) = false).
Proof.
  intros Hp He. cbn zeta.
  assert (Hrun : ∃ stamps,
            store (Personality.personality_agent env s t) = formatted s (response p) stamps).
  { destruct (Text.truthy (Personality.get_original_response s)) eqn:Ho.
    - destruct (complete env t "personality" []
                  (Personality.get_original_response s)) as [msg|reply] eqn:Hl.
      + exfalso. revert Hp. run_formatter; rewrite ?configure_original, ?Ho, ?Hl.
        run_formatter. discriminate.
      + rewrite (formatter_answered env s t reply Ho Hl). cbn [store].
        revert Hp. run_formatter; rewrite ?configure_original, ?Ho, ?Hl.
        run_formatter; rewrite ?Ho. run_formatter.
        intros [= <-]. cbn [response Personality.final_output]. eauto.
    - rewrite (formatter_nothing_to_format env s t Ho). cbn [store].
      revert Hp. run_formatter; rewrite ?configure_original, ?Ho.
      run_formatter; rewrite ?Ho. run_formatter.
      intros [= <-]. cbn [response Personality.final_output]. eauto. }
  destruct Hrun as (stamps & ->).
  destruct (formatted_fields s (response p) stamps)
    as (Hm & _ & _ & _ & Herr & Hnf & _).
  cbn zeta in *.
  assert (Hlast : Graph.last_message (formatted s (response p) stamps) = response p).
  { unfold Graph.last_message. rewrite Hm, last_snoc. reflexivity. }
  split; [exact Hlast|].
  unfold Graph.should_continue. rewrite Herr, He, Hlast, Hnf.
  destruct (existsb _ Graph.end_indicators) eqn:Ex; cbn [fst].
  - split; [auto|]. split; [|done]. intros _. left. by apply existsb_indicator.
  - assert (Hno : ¬ ∃ indicator, indicator ∈ Graph.end_indicators
                    ∧ Text.contains indicator (Text.lower (response p)) = true).
    { intros H. apply existsb_indicator in H. congruence. }
    destruct (default true (needs_followup s)); cbn [fst].
    + split; [auto|]. split; [discriminate|]. intros [H|H]; [done|discriminate].
    + split; [auto|]. split; auto.
Qed.

Lemma formatted_reply_decides_continuation_witness :
  let s := with_outcome (Graph.initial_state "Where is my ticket?") in
  let env := answering "Thank you for waiting: your ticket is open." in
  let p := {| response := "Thank you for waiting: your ticket is open.";
              source_agent_response := "Your ticket is open.";
              agent_workflow := SharedHistory;
              payload_conversation_active := true;
              payload_needs_followup := true;
              payload_error := None |} in
  let r := Personality.personality_agent env s [] in
  value (Personality.personality_try env (s, None) []) = Return p
  ∧ Text.truthy_opt (error s) = false
  ∧ Graph.last_message (store r) = response p
  ∧ (Graph.should_continue (store r)).1 = END.
Proof.
  cbn zeta.
  assert (H1 : value (Personality.personality_try
                        (answering "Thank you for waiting: your ticket is open.")
                        (with_outcome (Graph.initial_state "Where is my ticket?"), None) [])
               = Return {| response := "Thank you for waiting: your ticket is open.";
                           source_agent_response := "Your ticket is open.";
                           agent_workflow := SharedHistory;
                           payload_conversation_active := true;
                           payload_needs_followup := true;
                           payload_error := None |})
    by (vm_compute; reflexivity).
  split; [exact H1|]. split; [reflexivity|].
  pose proof (formatted_reply_decides_continuation _ _ _ _ H1 eq_refl) as H.
  cbn zeta in H. destruct H as (Hl & _ & _).
  split; [exact Hl|]. vm_compute. reflexivity.
Defined.

(** ** The support worker: every way a run can go *)

Lemma received_fields (ts : string) (s : AgentState) :
  let x := received ts s in
  messages x = messages s ∧ input x = input s
  ∧ workflow_history x
    = workflow_history s ++
      [{| agent_name := "support"; action := Some "handle_request";
          wf_input := Some (input s); wf_output := None; tool_calls := None;
          wf_error := None; timestamp := Some ts |}]
  ∧ agent_stack x = Some (default [] (agent_stack s) ++ ["support"])
  ∧ current_agent x = Some "support"
  ∧ error x = error s ∧ agent_outcome x = agent_outcome s
  ∧ tool_outputs x = tool_outputs s ∧ is_complete x = is_complete s
  ∧ needs_followup x = needs_followup s
  ∧ support_context x
    = Some (default (Support.empty_context []) (support_context s)).
Proof.
  destruct s as [inp msgs ao nx outs usage lt tres wh po er ic cur stk ca nf tl pc sc];
    destruct stk, sc; repeat split; reflexivity.
Qed.

Lemma extends_refl (s : AgentState) : extends s s.
Proof. repeat split. exists []. by rewrite app_nil_r. Qed.

Lemma truthy_app (a b : string) : Text.truthy a = true → Text.truthy (a +:+ b) = true.
Proof. destruct a; [discriminate|reflexivity]. Qed.

(** The worker up to the point where the request file has been read. *)
Lemma worker_dispatch (env : Env) (s : AgentState) (t : Trace) :
  Support.customer_support_agent env s t
  = let s1 := received (clock env t) s in
    let t1 := (t ++ [Now]) ++ [OpenJson (request_file (input s))] in
    match read_json env (t ++ [Now]) (request_file (input s)) with
    | inl e =>
        Run (Return tt)
          (set_messages
             (messages s ++
                [{| role := AIMessage;
                    content :=
                      "I apologize, but I encountered an issue: "
                      +:+ ("Error loading customer data: " +:+ e) +:+ ". "
                      +:+ "Could you please provide your request details again?" |}])
             (set_error (Some ("Error loading customer data: " +:+ e)) s1))
          t1
    | inr file =>
        try_except
          (Support.support_try env
             {| Support.intent := Support.classify_intent (input s);
                Support.data := Some file; Support.load_error := None |})
          (Support.support_except env) s1 (t1 ++ [HubPull "hwchase17/react"])
    end.
Proof.
  cbn zeta. unfold request_file, received.
  cbv beta iota zeta delta
    [Support.customer_support_agent Support.process_customer_data
     Support.build_executor Support.say Support.now bind modify get ret call
     try_except fst snd value store trace].
  cbn [input Support.log_request set_workflow_history].
  rewrite support_initialize_input.
  destruct (read_json env (t ++ [Now]) _) as [e|file].
  - cbv beta iota zeta delta [Support.load_error Text.truthy_opt default from_option id].
    rewrite (truthy_app "Error loading customer data: " e eq_refl).
    cbv beta iota zeta delta [bind modify fst snd value store trace].
    cbn [messages set_error Support.log_request set_workflow_history].
    rewrite support_initialize_messages. reflexivity.
  - cbv beta iota zeta delta [Support.load_error Text.truthy_opt default from_option id
                              bind call]. reflexivity.
Qed.

(** The handler of the worker: what it leaves, for any exception text. *)
Lemma support_except_fields (env : Env) (e : string) (s : AgentState) (t : Trace) :
  let r := Support.support_except env e s t in
  value r = Return tt
  ∧ trace r = t ++ [Now]
  ∧ error (store r) = Some ("Error in customer support agent: " +:+ e)
  ∧ (∃ text, messages (store r) = messages s ++ [{| role := AIMessage; content := text |}]
             ∧ String.prefix "I apologize, but I need some additional information." text
               = true)
  ∧ needs_followup (store r) = Some true
  ∧ workflow_history (store r)
    = workflow_history s ++
      [{| agent_name := "support"; action := Some "error_handling";
          wf_input := None; wf_output := None; tool_calls := None;
          wf_error := Some ("Error in customer support agent: " +:+ e);
          timestamp := Some (clock env t) |}]
  ∧ router_llm (tool_outputs (store r)) = router_llm (tool_outputs s)
  ∧ by_tool (tool_outputs (store r))
    = delete "schedule_support_call"
        (delete "create_support_ticket" (by_tool (tool_outputs s)))
  ∧ support_context (store r)
    = (c ← support_context s;
       Some (Support.empty_context (default [] (interaction_history c))))
  ∧ input (store r) = input s ∧ agent_stack (store r) = agent_stack s
  ∧ current_agent (store r) = current_agent s
  ∧ agent_outcome (store r) = agent_outcome s
  ∧ is_complete (store r) = is_complete s
  ∧ tool_usage (store r) = tool_usage s.
Proof.
  cbn zeta. run_support.
  destruct s as [inp msgs ao nx outs usage lt tres wh po er ic cur stk ca nf tl pc sc].
  destruct sc; cbn; repeat split; eexists; split; reflexivity.
Qed.

(** The run of the executor and what follows it in the try block. *)
Lemma execute_agent_cases (env : Env) (cmd : string) (s : AgentState) (t : Trace) :
  let r := Support.execute_agent env cmd s t in
  let history := filter (λ m, role m = SystemMessage) (messages s) in
  trace r = t ++ [Executor cmd]
  ∧ extends s (store r)
  ∧ tool_outputs (store r) = tool_outputs s
  ∧ support_context (store r) = support_context s
  ∧ match run_executor env t cmd history with
    | inr response =>
        match response !! "output" with
        | Some out =>
            value r = Return tt
            ∧ messages (store r)
              = messages s ++
                [{| role := AIMessage;
                    content :=
                      if existsb (λ phrase, Text.contains phrase (Text.lower out))
                                 Support.followup_phrases
                      then out
                      else out +:+ "

Is there anything else I can help you with?" |}]
            ∧ agent_outcome (store r) = Some response
            ∧ error (store r) = None
            ∧ needs_followup (store r) = Some true
            ∧ is_complete (store r) = Some true
        | None =>
            value r = Raise "'output'" ∧ messages (store r) = messages s
            ∧ error (store r) = error s ∧ agent_outcome (store r) = agent_outcome s
            ∧ is_complete (store r) = is_complete s
        end
    | inl e =>
        value r = Raise e ∧ store r = s
    end.
Proof.
  cbn zeta. run_support.
  destruct (run_executor env t cmd _) as [e|response].
  - cbn [value store trace]. repeat split. apply extends_refl.
  - cbv beta iota zeta delta [bind modify fst snd value store trace].
    destruct (response !! "output") as [out|].
    + cbv beta iota zeta delta [bind modify fst snd value store trace ret].
      destruct (existsb _ _); cbn [negb];
        (split; [reflexivity|]); (split; [|repeat split]);
        repeat split; eexists; reflexivity.
    + cbv beta iota zeta delta [bind modify fst snd value store trace raise].
      (split; [reflexivity|]); (split; [|repeat split]);
        repeat split; eexists; reflexivity.
Qed.

Lemma extends_trans (a b c : AgentState) : extends a b → extends b c → extends a c.
Proof.
  intros (H1 & H2 & H3 & m1 & H4) (G1 & G2 & G3 & m2 & G4).
  repeat split; try congruence. exists (m1 ++ m2). rewrite G4, H4, app_assoc. done.
Qed.

(** With the three fields present the list of missing fields is empty. *)
Lemma missing_fields_nil (request : gmap string string) :
  Support.missing_fields request = []
  ↔ ∃ date time summary,
      request !! "preferred_date" = Some date ∧ Text.truthy date = true
      ∧ request !! "preferred_time" = Some time ∧ Text.truthy time = true
      ∧ request !! "issue_summary" = Some summary ∧ Text.truthy summary = true.
Proof.
  unfold Support.missing_fields, Support.lacks.
  destruct (request !! "preferred_time") as [tm|],
           (request !! "issue_summary") as [sm|],
           (request !! "preferred_date") as [dt|];
    cbv beta iota delta [Text.truthy_opt];
    try destruct (Text.truthy tm) eqn:?; try destruct (Text.truthy sm) eqn:?;
    try destruct (Text.truthy dt) eqn:?; cbn [negb app];
    (split;
     [intros H; try discriminate H; eexists _, _, _; done
     |intros (? & ? & ? & ? & ? & ? & ? & ? & ?); congruence]).
Qed.

(** The try block of the worker prepares one command, or asks for the
    fields the request lacks, or fails on a key the file does not have. *)
Lemma support_try_prepares (env : Env) (intent : string) (file : RequestFile)
    (s : AgentState) (t : Trace) :
  let pr := {| Support.intent := intent; Support.data := Some file;
               Support.load_error := None |} in
  let r := Support.support_try env pr s t in
  (∃ cmd, r = Support.execute_agent env cmd s t
          ∧ ((intent = "create_ticket"
              ∧ ∃ request d, request_data file = Some request
                  ∧ request !! "issue_description" = Some d
                  ∧ cmd = Support.ticket_command d)
             ∨ (intent ≠ "create_ticket"
                ∧ ∃ request date time summary,
                    request_data file = Some request
                    ∧ Support.missing_fields request = []
                    ∧ request !! "preferred_date" = Some date
                    ∧ request !! "preferred_time" = Some time
                    ∧ request !! "issue_summary" = Some summary
                    ∧ cmd = Support.call_command date time summary)))
  ∨ (∃ request, intent ≠ "create_ticket" ∧ request_data file = Some request
        ∧ Support.missing_fields request ≠ []
        ∧ r = Run (Return tt)
                (set_needs_followup (Some true)
                   (set_messages
                      (messages s ++
                         [{| role := AIMessage;
                             content :=
                               "I need some additional information to schedule your support call. "
                               +:+ "Please provide: "
                               +:+ Text.join ", " (Support.missing_fields request) +:+ "." |}])
                      (set_error
                         (Some ("Missing required fields: "
                                +:+ Text.join ", " (Support.missing_fields request))) s)))
                t)
  ∨ (∃ key, r = Run (Raise ("'" +:+ key +:+ "'")) s t).
Proof.
  cbn zeta.
  cbv beta iota zeta delta
    [Support.support_try Support.subscript Support.intent Support.data
     bind ret raise fst snd value store trace].
  destruct (String.eqb_spec intent "create_ticket") as [->|Hi].
  - destruct (request_data file) as [request|]; cbv beta iota; [|right; right; eauto].
    destruct (request !! "issue_description") as [d|] eqn:Hd; cbv beta iota;
      [|right; right; eauto].
    left. eexists. split; [reflexivity|]. left. split; [done|]. eauto.
  - destruct (request_data file) as [request|]; cbv beta iota; [|right; right; eauto].
    destruct (Support.missing_fields request) as [|f fs] eqn:Hm.
    + destruct (proj1 (missing_fields_nil request) Hm)
        as (date & time & summary & Hd & _ & Ht & _ & Hs & _).
      rewrite Hd, Ht, Hs. cbv beta iota.
      left. eexists. split; [reflexivity|]. right. split; [done|].
      eexists _, _, _, _. repeat split; eauto.
    + right; left. exists request. rewrite Hm.
      split; [done|]. split; [done|]. split; [done|].
      cbv beta iota zeta delta
        [Support.say bind modify fst snd value store trace].
      cbn [messages set_error]. reflexivity.
Qed.

(** What a run of the worker leaves, as a case of three: the executor
    answered; the worker asked for details without running it; the
    handler took over. *)
Lemma worker_cases (env : Env) (s : AgentState) (t : Trace) :
  let r := Support.customer_support_agent env s t in
  let s1 := received (clock env t) s in
  let opened := (t ++ [Now]) ++ [OpenJson (request_file (input s))] in
  value r = Return tt
  ∧ extends s1 (store r)
  ∧ ((∃ cmd response out,
        trace r = (opened ++ [HubPull "hwchase17/react"]) ++ [Executor cmd]
        ∧ run_executor env (opened ++ [HubPull "hwchase17/react"]) cmd
            (filter (λ m, role m = SystemMessage) (messages s)) = inr response
        ∧ response !! "output" = Some out
        ∧ messages (store r)
          = messages s ++
            [{| role := AIMessage;
                content :=
                  if existsb (λ phrase, Text.contains phrase (Text.lower out))
                             Support.followup_phrases
                  then out
                  else out +:+ "

Is there anything else I can help you with?" |}]
        ∧ agent_outcome (store r) = Some response
        ∧ error (store r) = None
        ∧ needs_followup (store r) = Some true
        ∧ is_complete (store r) = Some true
        ∧ tool_outputs (store r) = tool_outputs s)
     ∨ (∃ e text,
          (trace r = opened ∨ trace r = opened ++ [HubPull "hwchase17/react"])
          ∧ error (store r) = Some e
          ∧ (String.prefix "Error loading customer data: " e = true
             ∨ String.prefix "Missing required fields: " e = true)
          ∧ messages (store r) = messages s ++ [{| role := AIMessage; content := text |}]
          ∧ agent_outcome (store r) = agent_outcome s
          ∧ is_complete (store r) = is_complete s
          ∧ tool_outputs (store r) = tool_outputs s)
     ∨ (∃ e text calls,
          trace r = (opened ++ [HubPull "hwchase17/react"]) ++ calls ++ [Now]
          ∧ (calls = [] ∨ ∃ cmd, calls = [Executor cmd])
          ∧ error (store r) = Some ("Error in customer support agent: " +:+ e)
          ∧ messages (store r) = messages s ++ [{| role := AIMessage; content := text |}]
          ∧ String.prefix "I apologize, but I need some additional information." text = true
          ∧ needs_followup (store r) = Some true
          ∧ agent_outcome (store r) = agent_outcome s
          ∧ is_complete (store r) = is_complete s
          ∧ router_llm (tool_outputs (store r)) = router_llm (tool_outputs s)
          ∧ by_tool (tool_outputs (store r))
            = delete "schedule_support_call"
                (delete "create_support_ticket" (by_tool (tool_outputs s)))
          ∧ support_context (store r)
            = Some (Support.empty_context (Graph.current_history s))
          ∧ ∃ entry, last (workflow_history (store r)) = Some entry
                     ∧ action entry = Some "error_handling"
                     ∧ wf_error entry = error (store r))).
Proof.
  cbn zeta. rewrite worker_dispatch. cbn zeta.
  destruct (received_fields (clock env t) s)
    as (Rm & Ri & Rw & Rs & Rc & Re & Ro & Rt & Ric & Rnf & Rsc).
  cbn zeta in *.
  set (s1 := received (clock env t) s) in *.
  set (opened := (t ++ [Now]) ++ [OpenJson (request_file (input s))]).
  destruct (read_json env (t ++ [Now]) (request_file (input s))) as [e|file].
  { cbn [value store trace]. split; [reflexivity|]. split.
    { repeat split. exists []. cbn. by rewrite app_nil_r. }
    right; left. eexists _, _. split; [by left|].
    cbn [error messages agent_outcome is_complete tool_outputs set_messages set_error].
    split; [reflexivity|]. split; [left; apply prefix_app|].
    repeat split; auto. }
  unfold try_except.
  set (pr := {| Support.intent := _ |}).
  destruct (support_try_prepares env (Support.classify_intent (input s)) file s1
              (opened ++ [HubPull "hwchase17/react"]))
    as [(cmd & Hr & _)|[(request & _ & _ & Hm & Hr)|(key & Hr)]];
    cbn zeta in Hr; fold pr in Hr; rewrite Hr; clear Hr.
  - (* the executor runs *)
    destruct (execute_agent_cases env cmd s1 (opened ++ [HubPull "hwchase17/react"]))
      as (Ht & Hx & Hto & Hsc & Hcase).
    cbn zeta in *. rewrite Rm in Hcase.
    destruct (Support.execute_agent env cmd s1 (opened ++ [HubPull "hwchase17/react"]))
      as [v s2 t2].
    cbn [value store trace] in *. subst t2.
    destruct (run_executor env _ cmd _) as [e|response] eqn:Hex.
    + destruct Hcase as (-> & ->). cbv beta iota.
      destruct (support_except_fields env e s1
                  ((opened ++ [HubPull "hwchase17/react"]) ++ [Executor cmd]))
        as (Hv & Htr & Herr & (text & Hmsg & Hpre) & Hnf & Hwh & Hrl & Hbt & Hctx
            & Hin & Hst & Hcur & Hao & Hic & _).
      cbn zeta in *. split; [exact Hv|]. split.
      { repeat split; auto. eexists. exact Hwh. }
      right; right. exists e, text, [Executor cmd].
      rewrite Htr, Herr, Hmsg, Hnf, Hao, Hic, Hrl, Hbt, Hctx, Hwh, ?Rm, Ro, Ric, Rt, Rsc.
      rewrite last_snoc.
      repeat split; eauto.
      * by rewrite <- app_assoc.
      * unfold Graph.current_history. by destruct (support_context s).
    + destruct (response !! "output") as [out|] eqn:Hout.
      * destruct Hcase as (-> & Hmsg & Hao & Herr & Hnf & Hic). cbv beta iota.
        cbn [value store trace].
        split; [reflexivity|]. split; [exact Hx|].
        left. exists cmd, response, out.
        rewrite Hmsg, Hao, Herr, Hnf, Hic, Hto, Rt.
        repeat split; auto.
      * destruct Hcase as (-> & Hmsg0 & Herr0 & Hao0 & Hic0). cbv beta iota.
        destruct (support_except_fields env "'output'" s2
                  ((opened ++ [HubPull "hwchase17/react"]) ++ [Executor cmd]))
          as (Hv & Htr & Herr & (text & Hmsg & Hpre) & Hnf & Hwh & Hrl & Hbt & Hctx
              & Hin & Hst & Hcur & Hao & Hic & _).
        cbn zeta in *. split; [exact Hv|]. split.
        { eapply extends_trans; [exact Hx|]. repeat split; auto. eexists. exact Hwh. }
        right; right. exists "'output'", text, [Executor cmd].
        rewrite Htr, Herr, Hmsg, Hnf, Hao, Hic, Hrl, Hbt, Hctx, Hwh,
                Hmsg0, Hao0, Hic0, Hto, Hsc, ?Rm, Ro, Ric, Rt, Rsc.
        rewrite last_snoc.
        repeat split; eauto.
        -- by rewrite <- app_assoc.
        -- unfold Graph.current_history. by destruct (support_context s).
  - (* the request lacks a field *)
    cbn [value store trace]. split; [reflexivity|]. split.
    { repeat split. exists []. cbn. by rewrite app_nil_r. }
    right; left. eexists _, _. split; [by right|].
    cbn [error messages agent_outcome is_complete tool_outputs set_messages set_error
         set_needs_followup].
    split; [reflexivity|]. split; [right; apply prefix_app|].
    rewrite Rm. repeat split; auto.
  - (* a key is absent from the file *)
    destruct (support_except_fields env ("'" +:+ key +:+ "'") s1
                (opened ++ [HubPull "hwchase17/react"]))
      as (Hv & Htr & Herr & (text & Hmsg & Hpre) & Hnf & Hwh & Hrl & Hbt & Hctx
          & Hin & Hst & Hcur & Hao & Hic & _).
    cbn zeta in *. split; [exact Hv|]. split.
    { repeat split; auto. eexists. exact Hwh. }
    right; right. exists ("'" +:+ key +:+ "'"), text, [].
    rewrite Htr, Herr, Hmsg, Hnf, Hao, Hic, Hrl, Hbt, Hctx, Hwh, ?Rm, Ro, Ric, Rt, Rsc.
    rewrite last_snoc.
    repeat split; eauto.
    unfold Graph.current_history. by destruct (support_context s).
Qed.





(** ** Errors and the end of the turn *)

Lemma formatter_error_kept (env : Env) (s : AgentState) (t : Trace) :
  Text.truthy_opt (error s) = true →
  Text.truthy_opt (error (store (Personality.personality_agent env s t))) = true.
Proof.
  intros He.
  destruct (Text.truthy (Personality.get_original_response s)) eqn:Ho.
  - destruct (complete env t "personality" [] (Personality.get_original_response s))
      as [msg|reply] eqn:Hl.
    + rewrite (formatter_failed env s t msg Ho Hl). reflexivity.
    + rewrite (formatter_answered env s t reply Ho Hl). cbn [store].
      destruct (formatted_fields s reply
        [clock env (t ++ [Completion "personality" (Personality.get_original_response s)]);
         clock env ((t ++ [Completion "personality" (Personality.get_original_response s)])
                    ++ [Now]);
         clock env (((t ++ [Completion "personality" (Personality.get_original_response s)])
                     ++ [Now]) ++ [Now])])
        as (_ & _ & _ & _ & H & _).
      cbn zeta in H. by rewrite H.
  - rewrite (formatter_nothing_to_format env s t Ho). cbn [store].
    destruct (formatted_fields s (Personality.get_original_response s)
                [""; clock env t; clock env (t ++ [Now])])
      as (_ & _ & _ & _ & H & _).
    cbn zeta in H. by rewrite H.
Qed.

(** X14.  The formatter never clears an error.  A state that enters it with a
    non-empty error leaves it with one, whether the formatting succeeds
    or not, so the edge out of the formatter ends the turn, and it does
    so before any clean-up: the state is exactly as the formatter left
    it, the knowledge and support contexts included. *)
Theorem error_survives_formatter
    (env : Env) (s : AgentState) (t : Trace) (k : option (gmap string string)) :
  Text.truthy_opt (error s) = true →
  let f := Personality.personality_agent env s t in
  let g := {| Graph.agent := store f; Graph.knowledge_context := k |} in
  Text.truthy_opt (error (store f)) = true
  ∧ Graph.personality_edge g = (END, g).
Proof.
  intros He. cbn zeta.
  pose proof (formatter_error_kept env s t He) as H.
  split; [exact H|].
  unfold Graph.personality_edge. cbn [Graph.agent]. by rewrite H.
Qed.

Lemma error_survives_formatter_witness :
  let s := set_error (Some "Missing required fields: preferred time")
             (Graph.initial_state "Please schedule a call") in
  let f := Personality.personality_agent (answering "Of course.") s [] in
  let g := {| Graph.agent := store f; Graph.knowledge_context := None |} in
  Text.truthy_opt (error s) = true
  ∧ Text.truthy_opt (error (store f)) = true
  ∧ Graph.personality_edge g = (END, g).
Proof.
  split; [reflexivity|].
  exact (error_survives_formatter (answering "Of course.")
           (set_error (Some "Missing required fields: preferred time")
              (Graph.initial_state "Please schedule a call")) [] None eq_refl).
Defined.





(** ** The support worker: the paths one by one *)

(** X17.  When the request file cannot be read, the worker stops there: it
    records the error with the text of the exception, appends one message
    that quotes it and returns.  The agent prompt is not fetched and the
    executor is not run; the ledger, the agent outcome and the
    continuation flags are left as they were, and the only workflow entry
    added is handle_request. *)
Theorem support_load_failure (env : Env) (s : AgentState) (t : Trace) (e : string) :
  read_json env (t ++ [Now]) (request_file (input s)) = inl e →
  let r := Support.customer_support_agent env s t in
  value r = Return tt
  ∧ trace r = t ++ [Now; OpenJson (request_file (input s))]
  ∧ error (store r) = Some ("Error loading customer data: " +:+ e)
  ∧ messages (store r)
    = messages s ++
      [{| role := AIMessage;
          content := "I apologize, but I encountered an issue: Error loading customer data: "
                     +:+ e +:+ ". Could you please provide your request details again?" |}]
  ∧ tool_outputs (store r) = tool_outputs s
  ∧ agent_outcome (store r) = agent_outcome s
  ∧ needs_followup (store r) = needs_followup s
  ∧ is_complete (store r) = is_complete s
  ∧ workflow_history (store r)
    = workflow_history s ++
      [{| agent_name := "support"; action := Some "handle_request";
          wf_input := Some (input s); wf_output := None; tool_calls := None;
          wf_error := None; timestamp := Some (clock env t) |}].
Proof.
  intros Hf. cbn zeta. rewrite worker_dispatch. cbn zeta. rewrite Hf.
  cbn [value store trace].
  destruct (received_fields (clock env t) s)
    as (Rm & Ri & Rw & Rs & Rc & Re & Ro & Rt & Ric & Rnf & Rsc).
  cbn zeta in *.
  cbn [error messages agent_outcome is_complete tool_outputs needs_followup
       workflow_history set_messages set_error].
  rewrite <- app_assoc.
  repeat split; auto.
Qed.

Lemma support_load_failure_witness :
  let env := world (inr "support") (inl "[Errno 2] No such file or directory: 'one.json'")
               (inr ∅) in
  let s := Graph.initial_state "My card reader is offline" in
  let r := Support.customer_support_agent env s [] in
  read_json env ([] ++ [Now]) (request_file (input s))
  = inl "[Errno 2] No such file or directory: 'one.json'"
  ∧ trace r = [Now; OpenJson "one.json"]
  ∧ error (store r)
    = Some "Error loading customer data: [Errno 2] No such file or directory: 'one.json'".
Proof.
  split; [reflexivity|].
  pose proof (support_load_failure
                (world (inr "support")
                   (inl "[Errno 2] No such file or directory: 'one.json'") (inr ∅))
                (Graph.initial_state "My card reader is offline") []
                "[Errno 2] No such file or directory: 'one.json'" eq_refl) as H.
  cbn zeta in H. destruct H as (_ & Ht & He & _).
  split; [exact Ht|exact He].
Defined.



(** ** The edge out of the formatter *)


(** X19.  personality_edge decides "router" or the terminal, by the
    continuation policy, and resets the state for what comes next.  On
    "router" the input is the canned follow-up prompt, is_complete is
    false, the worker's outcome and the last tool and its result are
    cleared and the current agent is "router"; the transcript, the
    ledger, the agent stack and both contexts are kept.  On the terminal
    without an error the knowledge context is emptied and the support
    context loses its ticket and appointment but keeps its interaction
    history; with an error nothing is cleared: the state is left exactly
    as it was. *)
Theorem personality_edge_resets (g : Graph.GraphState) :
  let d := (Graph.personality_edge g).1 in
  let g' := (Graph.personality_edge g).2 in
  let s := Graph.agent g in
  let s' := Graph.agent g' in
  d = (Graph.should_continue s).1
  ∧ (d = "router" ∨ d = END)
  ∧ (d = "router" →
     input s' = Graph.followup_prompt ∧ is_complete s' = Some false
     ∧ agent_outcome s' = None ∧ last_tool s' = None ∧ tool_result s' = None
     ∧ current_agent s' = Some "router"
     ∧ messages s' = messages s ∧ tool_outputs s' = tool_outputs s
     ∧ tool_usage s' = tool_usage s ∧ workflow_history s' = workflow_history s
     ∧ agent_stack s' = agent_stack s ∧ support_context s' = support_context s
     ∧ needs_followup s' = needs_followup s
     ∧ conversation_active s' = conversation_active s
     ∧ Graph.knowledge_context g' = Graph.knowledge_context g)
  ∧ (d = END →
     if Text.truthy_opt (error s) then g' = g
     else Graph.knowledge_context g' = Some ∅
          ∧ s' = set_support_context
                   (Some {| current_ticket := None; current_appointment := None;
                            interaction_history := Some (Graph.current_history s) |}) s).
Proof.
  cbn zeta. unfold Graph.personality_edge, Graph.should_continue.
  destruct g as [s k]. cbn [Graph.agent Graph.knowledge_context].
  destruct (Text.truthy_opt (error s)) eqn:He.
  { cbn [fst snd Graph.agent]. split; [done|]. split; [auto|].
    split; [discriminate|]. done. }
  destruct (existsb _ Graph.end_indicators).
  { cbn [fst snd Graph.on_agent Graph.agent Graph.knowledge_context].
    change (String.eqb END "router") with false.
    change (String.eqb END END) with true. cbv iota.
    cbn [fst snd Graph.agent Graph.knowledge_context].
    split; [done|]. split; [auto|]. split; [discriminate|]. done. }
  destruct (default true (needs_followup s)).
  - cbn [fst snd Graph.on_agent Graph.agent Graph.knowledge_context].
    change (String.eqb "router" "router") with true. cbv iota.
    cbn [fst snd Graph.on_agent Graph.agent Graph.knowledge_context].
    split; [done|]. split; [auto|]. split; [|discriminate].
    intros _. destruct s; repeat split.
  - cbn [fst snd Graph.on_agent Graph.agent Graph.knowledge_context].
    change (String.eqb END "router") with false.
    change (String.eqb END END) with true. cbv iota.
    cbn [fst snd Graph.agent Graph.knowledge_context].
    split; [done|]. split; [auto|]. split; [discriminate|]. done.
Qed.




(** ** The agent stack *)

Lemma router_frame (env : Env) (s : AgentState) (t : Trace) :
  let r := Router.route_message env s t in
  agent_stack (store r) = Some (default [] (agent_stack s) ++ ["router"])
  ∧ current_agent (store r) = Some "router"
  ∧ messages (store r) = messages s.
Proof.
  cbn zeta.
  destruct (Text.mem (Text.lower (input s)) Router.end_commands) eqn:Hfast.
  { rewrite (route_fast env s t Hfast). cbn [store].
    open_state s; repeat split. }
  destruct (complete env (t ++ [Now]) "router" (messages s) (input s))
    as [msg|reply] eqn:Hllm.
  { rewrite (route_failed env s t _ Hfast Hllm). cbn [store].
    open_state s; repeat split. }
  rewrite (route_replied env s t _ Hfast Hllm). cbn [store]. unfold routed. cbn zeta.
  destruct (after_reply_frame (Text.strip (Text.lower reply))
    (clock env ((((t ++ [Now]) ++ [Completion "router" (input s)]) ++ [Now]) ++ [Now]))
    (recorded env s t (Text.strip (Text.lower reply)))) as (_ & Hs & Hc & Hm & _).
  cbn zeta in Hs, Hc, Hm. rewrite Hs, Hc, Hm.
  destruct (recorded_frame env s t (Text.strip (Text.lower reply)))
    as (Hs' & Hc' & Hm' & _).
  auto.
Qed.

Lemma log_start_history (ts : string) (s : AgentState) :
  workflow_history (Router.log_start ts (Router.initialize s))
  = workflow_history s ++
    [{| agent_name := "router"; action := Some "start_routing";
        wf_input := Some (input s); wf_output := None;
        tool_calls := Some RouterInitialized; wf_error := None;
        timestamp := Some ts |}].
Proof. open_state s; reflexivity. Qed.

Lemma recorded_history (env : Env) (s : AgentState) (t : Trace) (na : string) :
  workflow_history (recorded env s t na)
  = workflow_history (Router.log_start (clock env t) (Router.initialize s)).
Proof.
  unfold recorded, Router.stamp_use, Router.count_use, Router.add_call,
    Router.set_router_stats.
  reflexivity.
Qed.

(** X21.  The Classifier's audit trail.  Every run pushes "router" on the agent
    stack and makes it the current agent, leaves the transcript as it
    was, and only adds to the workflow history: the start_routing entry
    first, and after it the complete_routing entry exactly when the
    completion service was asked and answered.  The fast path and a
    failed call leave no completion entry. *)
Theorem router_audit_trail (env : Env) (s : AgentState) (t : Trace) :
  let r := Router.route_message env s t in
  agent_stack (store r) = Some (default [] (agent_stack s) ++ ["router"])
  ∧ current_agent (store r) = Some "router"
  ∧ messages (store r) = messages s
  ∧ ∃ start later,
      workflow_history (store r) = workflow_history s ++ start :: later
      ∧ agent_name start = "router" ∧ action start = Some "start_routing"
      ∧ wf_input start = Some (input s) ∧ timestamp start = Some (clock env t)
      ∧ if Text.mem (Text.lower (input s)) Router.end_commands then later = []
        else match complete env (t ++ [Now]) "router" (messages s) (input s) with
             | inl _ => later = []
             | inr _ => ∃ done, later = [done] ∧ agent_name done = "router"
                                ∧ action done = Some "complete_routing"
             end.
Proof.
  cbn zeta.
  destruct (router_frame env s t) as (Hs & Hc & Hm). cbn zeta in *.
  split; [exact Hs|]. split; [exact Hc|]. split; [exact Hm|]. clear Hs Hc Hm.
  destruct (Text.mem (Text.lower (input s)) Router.end_commands) eqn:Hfast.
  { rewrite (route_fast env s t Hfast). cbn [store].
    cbn [workflow_history set_next set_conversation_active].
    rewrite log_start_history. eexists _, []. repeat split. }
  destruct (complete env (t ++ [Now]) "router" (messages s) (input s))
    as [msg|reply] eqn:Hllm.
  { rewrite (route_failed env s t _ Hfast Hllm). cbn [store].
    cbn [workflow_history set_next set_error].
    rewrite log_start_history. eexists _, []. repeat split. }
  rewrite (route_replied env s t _ Hfast Hllm). cbn [store]. unfold routed. cbn zeta.
  destruct (after_reply_frame (Text.strip (Text.lower reply))
    (clock env ((((t ++ [Now]) ++ [Completion "router" (input s)]) ++ [Now]) ++ [Now]))
    (recorded env s t (Text.strip (Text.lower reply))))
    as (_ & _ & _ & _ & _ & done & Hw & Hn & Ha).
  cbn zeta in Hw. rewrite Hw, recorded_history, log_start_history, <- app_assoc.
  eexists _, [done]. repeat split. eauto.
Qed.

(** ** cleanup_state *)

Lemma removelast_snoc {A} (l : list A) (a : A) : removelast (l ++ [a]) = l.
Proof. rewrite removelast_app by discriminate. cbn. apply app_nil_r. Qed.

(** The three blocks of cleanup_state, one after the other: what each
    leaves of the fields the next one reads. *)
Lemma cleanup_blocks (g : Graph.GraphState) :
  ∃ g1 g2,
    (* Remove completed agent from stack *)
    (g1 = if truthy_list (default [] (agent_stack (Graph.agent g)))
          then Graph.on_agent
                 (λ s, set_current_agent
                         (last (removelast (default [] (agent_stack (Graph.agent g)))))
                         (set_agent_stack
                            (Some (removelast (default [] (agent_stack (Graph.agent g)))))
                            s)) g
          else g)
    (* Clear temporary data *)
    ∧ (g2 = if truthy_bool (is_complete (Graph.agent g))
            then {| Graph.agent :=
                      set_support_context
                        (Some {| current_ticket := None; current_appointment := None;
                                 interaction_history := None |}) (Graph.agent g1);
                    Graph.knowledge_context := Some ∅ |}
            else g1)
    (* Update conversation state *)
    ∧ Graph.cleanup_state g
      = if Text.truthy_opt (error (Graph.agent g)) then
          Graph.on_agent (λ s, set_needs_followup (Some false)
                                 (set_conversation_active (Some false) s)) g2
        else if negb (truthy_list (default [] (task_list (Graph.agent g))))
                && negb (truthy_bool (needs_followup (Graph.agent g))) then
          Graph.on_agent (set_conversation_active (Some false)) g2
        else g2.
Proof.
  eexists _, _. split; [reflexivity|]. split; [reflexivity|].
  unfold Graph.cleanup_state. cbv zeta.
  destruct g as [s k]. cbn [Graph.agent].
  destruct (truthy_list (default [] (agent_stack s)));
    destruct (truthy_bool (is_complete s)) eqn:Hic; cbn [Graph.on_agent Graph.agent];
    destruct s; cbn in Hic |- *; rewrite ?Hic; reflexivity.
Qed.

Lemma cleanup_keeps (g : Graph.GraphState) :
  ∃ g1, (g1 = if truthy_list (default [] (agent_stack (Graph.agent g)))
              then Graph.on_agent
                     (λ s, set_current_agent
                             (last (removelast (default [] (agent_stack (Graph.agent g)))))
                             (set_agent_stack
                                (Some (removelast (default [] (agent_stack (Graph.agent g)))))
                                s)) g
              else g)
        ∧ agent_stack (Graph.agent (Graph.cleanup_state g)) = agent_stack (Graph.agent g1)
        ∧ current_agent (Graph.agent (Graph.cleanup_state g))
          = current_agent (Graph.agent g1)
        ∧ messages (Graph.agent (Graph.cleanup_state g)) = messages (Graph.agent g1)
        ∧ tool_outputs (Graph.agent (Graph.cleanup_state g))
          = tool_outputs (Graph.agent g1)
        ∧ tool_usage (Graph.agent (Graph.cleanup_state g)) = tool_usage (Graph.agent g1)
        ∧ workflow_history (Graph.agent (Graph.cleanup_state g))
          = workflow_history (Graph.agent g1)
        ∧ error (Graph.agent (Graph.cleanup_state g)) = error (Graph.agent g1).
Proof.
  destruct (cleanup_blocks g) as (g1 & g2 & H1 & H2 & ->). exists g1.
  split; [exact H1|].
  assert (F2 : agent_stack (Graph.agent g2) = agent_stack (Graph.agent g1)
               ∧ current_agent (Graph.agent g2) = current_agent (Graph.agent g1)
               ∧ messages (Graph.agent g2) = messages (Graph.agent g1)
               ∧ tool_outputs (Graph.agent g2) = tool_outputs (Graph.agent g1)
               ∧ tool_usage (Graph.agent g2) = tool_usage (Graph.agent g1)
               ∧ workflow_history (Graph.agent g2) = workflow_history (Graph.agent g1)
               ∧ error (Graph.agent g2) = error (Graph.agent g1)).
  { rewrite H2. destruct (truthy_bool _); [|done].
    cbn [Graph.agent]. by destruct (Graph.agent g1). }
  destruct F2 as (A2 & C2 & M2 & O2 & U2 & W2 & E2).
  rewrite <- A2, <- C2, <- M2, <- O2, <- U2, <- W2, <- E2.
  destruct (Text.truthy_opt _); [|destruct (_ && _)];
    cbn [Graph.on_agent Graph.agent]; try done; by destruct (Graph.agent g2).
Qed.

Lemma cleanup_pops_fields (g : Graph.GraphState) (below : list string) (top : string) :
  agent_stack (Graph.agent g) = Some (below ++ [top]) →
  agent_stack (Graph.agent (Graph.cleanup_state g)) = Some below
  ∧ current_agent (Graph.agent (Graph.cleanup_state g)) = last below.
Proof.
  intros Hs. destruct (cleanup_keeps g) as (g1 & H1 & -> & -> & _).
  rewrite Hs in H1. cbn [default from_option id] in H1.
  replace (truthy_list (below ++ [top])) with true in H1 by (by destruct below).
  rewrite removelast_snoc in H1. subst g1.
  cbn [Graph.on_agent Graph.agent]. by destruct (Graph.agent g).
Qed.

(** X22.  cleanup_state pops the agent stack once: on a stack that is not
    empty it removes the top entry and makes the entry below it the
    current agent, or None when there is none; an empty or absent stack
    and the current agent beside it are left alone.  It touches neither
    the transcript nor the ledger nor the workflow history nor the
    error. *)
Theorem cleanup_pops_the_last_step (g : Graph.GraphState) :
  let g' := Graph.cleanup_state g in
  (∀ below top, agent_stack (Graph.agent g) = Some (below ++ [top]) →
     agent_stack (Graph.agent g') = Some below
     ∧ current_agent (Graph.agent g') = last below)
  ∧ (default [] (agent_stack (Graph.agent g)) = [] →
     agent_stack (Graph.agent g') = agent_stack (Graph.agent g)
     ∧ current_agent (Graph.agent g') = current_agent (Graph.agent g))
  ∧ messages (Graph.agent g') = messages (Graph.agent g)
  ∧ tool_outputs (Graph.agent g') = tool_outputs (Graph.agent g)
  ∧ tool_usage (Graph.agent g') = tool_usage (Graph.agent g)
  ∧ workflow_history (Graph.agent g') = workflow_history (Graph.agent g)
  ∧ error (Graph.agent g') = error (Graph.agent g).
Proof.
  cbn zeta. split; [intros below top; apply cleanup_pops_fields|].
  destruct (cleanup_keeps g) as (g1 & H1 & -> & -> & -> & -> & -> & -> & ->).
  split.
  - intros Hempty. rewrite Hempty in H1. subst g1. done.
  - subst g1. destruct (truthy_list _); [|done].
    cbn [Graph.on_agent Graph.agent]. by destruct (Graph.agent g).
Qed.

Lemma cleanup_pops_the_last_step_witness :
  let g := {| Graph.agent :=
                set_agent_stack (Some (["router"; "support"] ++ ["personality"]))
                  (Graph.initial_state "My card reader is offline");
              Graph.knowledge_context := None |} in
  agent_stack (Graph.agent g) = Some (["router"; "support"] ++ ["personality"])
  ∧ agent_stack (Graph.agent (Graph.cleanup_state g)) = Some ["router"; "support"]
  ∧ current_agent (Graph.agent (Graph.cleanup_state g)) = Some "support".
Proof.
  split; [reflexivity|].
  exact (proj1 (cleanup_pops_the_last_step
                  {| Graph.agent :=
                       set_agent_stack (Some (["router"; "support"] ++ ["personality"]))
                         (Graph.initial_state "My card reader is offline");
                     Graph.knowledge_context := None |})
               ["router"; "support"] "personality" eq_refl).
Defined.

(** X23.  cleanup_state only ever closes the conversation.  With an error it
    sets conversation_active and needs_followup to false; without one it
    sets conversation_active to false when no task is pending and
    needs_followup is not true, and otherwise leaves both flags alone.
    So a conversation that is active after the clean-up was active
    before it, had no error, and had a pending task or a follow-up
    due.  When is_complete is true both scratch contexts are emptied,
    the interaction history included. *)
Theorem cleanup_closes_conversation (g : Graph.GraphState) :
  let s := Graph.agent g in
  let g' := Graph.cleanup_state g in
  let s' := Graph.agent g' in
  (Text.truthy_opt (error s) = true →
   conversation_active s' = Some false ∧ needs_followup s' = Some false)
  ∧ (Text.truthy_opt (error s) = false →
     needs_followup s' = needs_followup s
     ∧ conversation_active s'
       = if negb (truthy_list (default [] (task_list s)))
            && negb (truthy_bool (needs_followup s))
         then Some false else conversation_active s)
  ∧ (conversation_active s' = Some true →
     conversation_active s = Some true ∧ Text.truthy_opt (error s) = false
     ∧ (default [] (task_list s) ≠ [] ∨ needs_followup s = Some true))
  ∧ (if truthy_bool (is_complete s)
     then Graph.knowledge_context g' = Some ∅
          ∧ support_context s'
            = Some {| current_ticket := None; current_appointment := None;
                      interaction_history := None |}
     else Graph.knowledge_context g' = Graph.knowledge_context g
          ∧ support_context s' = support_context s).
Proof.
  cbn zeta. destruct (cleanup_blocks g) as (g1 & g2 & H1 & H2 & ->).
  assert (F1 : conversation_active (Graph.agent g1) = conversation_active (Graph.agent g)
               ∧ needs_followup (Graph.agent g1) = needs_followup (Graph.agent g)
               ∧ support_context (Graph.agent g1) = support_context (Graph.agent g)
               ∧ Graph.knowledge_context g1 = Graph.knowledge_context g).
  { subst g1. destruct (truthy_list _); [|done].
    cbn [Graph.on_agent Graph.agent Graph.knowledge_context].
    by destruct (Graph.agent g). }
  destruct F1 as (C1 & N1 & S1 & K1).
  assert (F2 : conversation_active (Graph.agent g2) = conversation_active (Graph.agent g)
               ∧ needs_followup (Graph.agent g2) = needs_followup (Graph.agent g)
               ∧ (if truthy_bool (is_complete (Graph.agent g))
                  then Graph.knowledge_context g2 = Some ∅
                       ∧ support_context (Graph.agent g2)
                         = Some {| current_ticket := None; current_appointment := None;
                                   interaction_history := None |}
                  else Graph.knowledge_context g2 = Graph.knowledge_context g
                       ∧ support_context (Graph.agent g2)
                         = support_context (Graph.agent g))).
  { rewrite <- C1, <- N1, <- S1, <- K1. rewrite H2.
    destruct (truthy_bool _); [|done].
    cbn [Graph.agent Graph.knowledge_context]. by destruct (Graph.agent g1). }
  clear H1 H2 C1 N1 S1 K1 g1. destruct F2 as (C2 & N2 & X2).
  rewrite <- C2, <- N2.
  assert (X3 : ∀ f, Graph.knowledge_context (Graph.on_agent f g2)
                    = Graph.knowledge_context g2) by done.
  assert (Y3 : support_context
                 (Graph.agent
                    (if Text.truthy_opt (error (Graph.agent g)) then
                       Graph.on_agent (λ s, set_needs_followup (Some false)
                                              (set_conversation_active (Some false) s)) g2
                     else if negb (truthy_list (default [] (task_list (Graph.agent g))))
                             && negb (truthy_bool (needs_followup (Graph.agent g2))) then
                       Graph.on_agent (set_conversation_active (Some false)) g2
                     else g2))
               = support_context (Graph.agent g2)
               ∧ Graph.knowledge_context
                   (if Text.truthy_opt (error (Graph.agent g)) then
                      Graph.on_agent (λ s, set_needs_followup (Some false)
                                             (set_conversation_active (Some false) s)) g2
                    else if negb (truthy_list (default [] (task_list (Graph.agent g))))
                            && negb (truthy_bool (needs_followup (Graph.agent g2))) then
                      Graph.on_agent (set_conversation_active (Some false)) g2
                    else g2)
                 = Graph.knowledge_context g2).
  { destruct (Text.truthy_opt _); [|destruct (_ && _)];
      cbn [Graph.on_agent Graph.agent Graph.knowledge_context]; try done;
      by destruct (Graph.agent g2). }
  destruct Y3 as (Y3 & K3). rewrite Y3, K3. clear Y3 K3 X3.
  split; [|split; [|split; [|exact X2]]]; clear X2.
  - intros ->. cbn [Graph.on_agent Graph.agent]. by destruct (Graph.agent g2).
  - intros ->. destruct (_ && _); cbn [Graph.on_agent Graph.agent]; [|done].
    by destruct (Graph.agent g2).
  - destruct (Text.truthy_opt (error (Graph.agent g))).
    { cbn [Graph.on_agent Graph.agent]. destruct (Graph.agent g2). discriminate. }
    destruct (negb (truthy_list (default [] (task_list (Graph.agent g))))) eqn:Ht;
      cbn [andb].
    + destruct (truthy_bool (needs_followup (Graph.agent g2))) eqn:Hn; cbn [negb].
      * intros H. split; [exact H|]. split; [done|]. right.
        destruct (needs_followup (Graph.agent g2)) as [[]|]; try discriminate Hn; done.
      * cbn [Graph.on_agent Graph.agent]. destruct (Graph.agent g2). discriminate.
    + intros H. split; [exact H|]. split; [done|]. left.
      intros E. rewrite E in Ht. discriminate Ht.
Qed.

Lemma formatter_stack (env : Env) (s : AgentState) (t : Trace) :
  let r := Personality.personality_agent env s t in
  (agent_stack (store r) = Some (default [] (agent_stack s) ++ ["personality"])
   ∧ current_agent (store r) = Some "personality" ∧ error (store r) = error s)
  ∨ (agent_stack (store r) = agent_stack s
     ∧ ∃ msg, error (store r) = Some ("Error in personality agent: " +:+ msg)).
Proof.
  cbn zeta.
  destruct (Text.truthy (Personality.get_original_response s)) eqn:Ho.
  - destruct (complete env t "personality" [] (Personality.get_original_response s))
      as [msg|reply] eqn:Hl.
    + rewrite (formatter_failed env s t msg Ho Hl). cbn [store]. right.
      split; [|by eexists].
      unfold Personality.configure. destruct (personality_config s); [done|by destruct s].
    + rewrite (formatter_answered env s t reply Ho Hl). cbn [store]. left.
      destruct (formatted_fields s reply
        [clock env (t ++ [Completion "personality" (Personality.get_original_response s)]);
         clock env ((t ++ [Completion "personality" (Personality.get_original_response s)])
                    ++ [Now]);
         clock env (((t ++ [Completion "personality" (Personality.get_original_response s)])
                     ++ [Now]) ++ [Now])])
        as (_ & _ & Hs & Hc & He & _).
      auto.
  - rewrite (formatter_nothing_to_format env s t Ho). cbn [store]. left.
    destruct (formatted_fields s (Personality.get_original_response s)
                [""; clock env t; clock env (t ++ [Now])])
      as (_ & _ & Hs & Hc & He & _).
    auto.
Qed.

(** X24.  The agent stack is pushed by every step and popped only by the
    clean-up, once.  Along the support path (router, support worker,
    formatter, then cleanup_state) the stack that started as [base] ends
    as base + [router, support] with "support" as the current agent when
    the formatter returned from its try block; when the formatter failed
    it had pushed nothing, the clean-up removes the worker's entry
    instead, and the stack ends as base + [router] with "router" as the
    current agent. *)
Theorem turn_stack_after_cleanup
    (env : Env) (s : AgentState) (t : Trace) (k : option (gmap string string)) :
  let r1 := Router.route_message env s t in
  let r2 := Support.customer_support_agent env (store r1) (trace r1) in
  let r3 := Personality.personality_agent env (store r2) (trace r2) in
  let g := Graph.cleanup_state
             {| Graph.agent := store r3; Graph.knowledge_context := k |} in
  let base := default [] (agent_stack s) in
  agent_stack (store r2) = Some (base ++ ["router"; "support"])
  ∧ ((agent_stack (store r3) = Some (base ++ ["router"; "support"; "personality"])
      ∧ agent_stack (Graph.agent g) = Some (base ++ ["router"; "support"])
      ∧ current_agent (Graph.agent g) = Some "support")
     ∨ ((∃ msg, error (store r3) = Some ("Error in personality agent: " +:+ msg))
        ∧ agent_stack (store r3) = Some (base ++ ["router"; "support"])
        ∧ agent_stack (Graph.agent g) = Some (base ++ ["router"])
        ∧ current_agent (Graph.agent g) = Some "router")).
Proof.
  cbn zeta.
  destruct (router_frame env s t) as (S1 & _).
  set (r1 := Router.route_message env s t) in *.
  destruct (worker_cases env (store r1) (trace r1)) as (_ & (_ & S2 & _) & _).
  destruct (received_fields (clock env (trace r1)) (store r1))
    as (_ & _ & _ & S2' & _).
  cbn zeta in *. rewrite S2' in S2. rewrite S1 in S2. cbn [default from_option id] in S2.
  rewrite <- app_assoc in S2. cbn [app] in S2.
  set (r2 := Support.customer_support_agent env (store r1) (trace r1)) in *.
  split; [exact S2|].
  destruct (formatter_stack env (store r2) (trace r2)) as [(S3 & _)|(S3 & msg & E3)];
    cbn zeta in *; rewrite S2 in S3; cbn [default from_option id] in S3.
  - left. rewrite <- app_assoc in S3. cbn [app] in S3. split; [exact S3|].
    set (r3 := Personality.personality_agent env (store r2) (trace r2)) in *.
    destruct (cleanup_pops_fields {| Graph.agent := store r3; Graph.knowledge_context := k |}
                (default [] (agent_stack s) ++ ["router"; "support"]) "personality") as (A & C).
    { cbn [Graph.agent]. rewrite S3, <- app_assoc. reflexivity. }
    split; [exact A|]. rewrite C.
    change (default [] (agent_stack s) ++ ["router"; "support"])
      with (default [] (agent_stack s) ++ ["router"] ++ ["support"]).
    rewrite app_assoc, last_snoc. reflexivity.
  - right. split; [eauto|]. split; [exact S3|].
    set (r3 := Personality.personality_agent env (store r2) (trace r2)) in *.
    destruct (cleanup_pops_fields {| Graph.agent := store r3; Graph.knowledge_context := k |}
                (default [] (agent_stack s) ++ ["router"]) "support") as (A & C).
    { cbn [Graph.agent]. rewrite S3, <- app_assoc. reflexivity. }
    split; [exact A|]. rewrite C, last_snoc. reflexivity.
Qed.

(** ** The intent of a request *)

Lemma prefix_app_l (needle hay rest : string) :
  String.prefix needle hay = true → String.prefix needle (hay +:+ rest) = true.
Proof.
  revert hay. induction needle as [|n needle IH]; intros hay; [by destruct hay, rest|].
  destruct hay as [|c h]; [discriminate|].
  change (String c h +:+ rest) with (String c (h +:+ rest)).
  cbn [String.prefix]. destruct (ascii_dec n c); [apply IH|done].
Qed.

Lemma contains_app_l (needle hay rest : string) :
  Text.contains needle hay = true → Text.contains needle (hay +:+ rest) = true.
Proof.
  induction hay as [|c h IH].
  - rewrite contains_unfold, orb_false_r. intros H.
    rewrite contains_unfold. apply orb_true_iff. left. by apply prefix_app_l.
  - rewrite contains_unfold. intros H. apply orb_prop in H as [H|H].
    + rewrite contains_unfold. apply orb_true_iff. left. by apply prefix_app_l.
    + change (String c h +:+ rest) with (String c (h +:+ rest)).
      rewrite contains_unfold, (IH H). apply orb_true_r.
Qed.

(** X25.  The intent is found by substring search in the lowercased input: an
    input is a call request exactly when it contains one of the call
    keywords, in any case and anywhere, inside a longer word included;
    every other input is a ticket request.  The intent alone selects the
    request file. *)
Theorem intent_by_substring (user_input : string) :
  (Support.classify_intent user_input = "schedule_call"
   ↔ ∃ keyword, keyword ∈ Support.call_keywords
                ∧ Text.contains keyword (Text.lower user_input) = true)
  ∧ (Support.classify_intent user_input = "create_ticket"
     ↔ ∀ keyword, keyword ∈ Support.call_keywords
                  → Text.contains keyword (Text.lower user_input) = false)
  ∧ (∀ before word after,
       user_input = before +:+ word +:+ after →
       Text.lower word ∈ Support.call_keywords →
       Support.classify_intent user_input = "schedule_call"
       ∧ request_file user_input = "two.json").
Proof.
  assert (Hiff : Support.classify_intent user_input = "schedule_call"
                 ↔ ∃ keyword, keyword ∈ Support.call_keywords
                      ∧ Text.contains keyword (Text.lower user_input) = true).
  { unfold Support.classify_intent.
    destruct (existsb _ _) eqn:Ex.
    - split; [intros _|done]. apply existsb_exists in Ex as (k & Hin & Hc).
      exists k. split; [by apply list_elem_of_In|exact Hc].
    - split; [discriminate|]. intros (k & Hin & Hc).
      assert (existsb (λ keyword, Text.contains keyword (Text.lower user_input))
                Support.call_keywords = true) as E.
      { apply existsb_exists. exists k. split; [by apply list_elem_of_In|exact Hc]. }
      congruence. }
  split; [exact Hiff|]. split.
  - split.
    + intros Ht k Hin. destruct (Text.contains k _) eqn:Hc; [|done].
      assert (Support.classify_intent user_input = "schedule_call") as E
        by (apply Hiff; eauto).
      rewrite E in Ht. discriminate Ht.
    + intros Hall. destruct (classify_intent_cases user_input) as [E|E]; [|exact E].
      apply Hiff in E as (k & Hin & Hc). rewrite (Hall k Hin) in Hc. discriminate Hc.
  - intros before word after -> Hin.
    assert (E : Support.classify_intent (before +:+ word +:+ after) = "schedule_call").
    { apply Hiff. exists (Text.lower word). split; [exact Hin|].
      rewrite !lower_app. apply contains_app_r, contains_app_l.
      rewrite <- (string_app_empty_r (Text.lower word)) at 2. apply contains_here. }
    split; [exact E|]. unfold request_file. rewrite E. reflexivity.
Qed.
